(** * genielibs: getter functions of the IOS-XE SDK

    A shallow embedding of
      - pkgs/sdk-pkg/src/genie/libs/sdk/apis/iosxe/interface/get.py
      - pkgs/sdk-pkg/src/genie/libs/sdk/apis/iosxe/mpls/get.py
    and the properties of these functions that the specification states.

    The getters are Python functions over dynamically typed values.  They
    talk to a device object ([parse], [execute]), to topology objects and
    to a few helpers that live outside these two files.  The embedding
    keeps that shape:
      - [pyval] is the universe of Python values the getters handle;
      - [prog] is a small monad of programs that issue [event]s to the
        outside world and may raise an exception;
      - [run] executes a program against a stateful environment and
        records the transcript of events and answers. *)

From Stdlib Require Import ZArith List String Ascii Bool Lia Sorted.
From Stdlib Require Import DecimalString.
From Stdlib Require Import Floats.PrimFloat.
From Stdlib Require Import Uint63.
From ExtLib Require Import Structures.Monad Structures.MonadExc.
Import ListNotations.
Import MonadNotation.

Local Open Scope string_scope.
Local Open Scope Z_scope.
Local Open Scope monad_scope.

(* ===================================================================== *)
(** ** Python values and exceptions *)
(* ===================================================================== *)

(** The exception classes that the two modules mention or that their
    subscripts, attribute reads and conversions can raise. *)
Inductive exn : Type :=
| SchemaEmptyParserError   (* genie.metaparser: the parser found no data *)
| SubCommandFailure        (* unicon: the device rejected the command *)
| KeyError
| IndexError
| AttributeError
| TypeError
| ValueError
| ZeroDivisionError
| OtherError (name : string).

Definition exn_eqb (a b : exn) : bool :=
  match a, b with
  | SchemaEmptyParserError, SchemaEmptyParserError => true
  | SubCommandFailure, SubCommandFailure => true
  | KeyError, KeyError => true
  | IndexError, IndexError => true
  | AttributeError, AttributeError => true
  | TypeError, TypeError => true
  | ValueError, ValueError => true
  | ZeroDivisionError, ZeroDivisionError => true
  | OtherError x, OtherError y => String.eqb x y
  | _, _ => false
  end.

(** A computation that returns or raises. *)
Inductive result (A : Type) : Type :=
| Ok (a : A)
| Err (e : exn).
Arguments Ok {A} a.
Arguments Err {A} e.

#[export] Instance Monad_result : Monad result :=
  {| ret := fun _ a => Ok a;
     bind := fun _ _ c f => match c with Ok a => f a | Err e => Err e end |}.

#[export] Instance Exc_result : MonadExc exn result :=
  {| raise := fun _ e => Err e;
     catch := fun _ c h => match c with Ok a => Ok a | Err e => h e end |}.

(** Dictionary keys.  Parser outputs are keyed by strings and, at a few
    levels (for instance [label_space_id]), by integers. *)
Inductive key : Type :=
| KStr (s : string)
| KInt (z : Z).

Definition key_eqb (a b : key) : bool :=
  match a, b with
  | KStr x, KStr y => String.eqb x y
  | KInt x, KInt y => Z.eqb x y
  | _, _ => false
  end.

Local Set Warnings "-register-all".

(** Python values.  A dictionary is an association list in insertion
    order, which is the order Python iterates it in. *)
Inductive pyval : Type :=
| PNone
| PBool (b : bool)
| PInt (z : Z)
| PFloat (f : float)
| PStr (s : string)
| PList (l : list pyval)
| PTuple (l : list pyval)
| PDict (d : list (key * pyval))
| PObj (id : Z)                           (* an object of the framework: Device, Interface, Link, ... *)
| PNew (cls : string) (args : list pyval). (* an instance the code builds itself: Not(x), R([...]) *)

Definition key_val (k : key) : pyval :=
  match k with KStr s => PStr s | KInt z => PInt z end.

Definition as_key (v : pyval) : option key :=
  match v with
  | PStr s => Some (KStr s)
  | PInt z => Some (KInt z)
  | PBool b => Some (KInt (Z.b2z b))
  | _ => None
  end.

Fixpoint lookup (k : key) (d : list (key * pyval)) : option pyval :=
  match d with
  | [] => None
  | (k', v) :: rest => if key_eqb k k' then Some v else lookup k rest
  end.

(** [bool(v)]. *)
Definition truthy (v : pyval) : bool :=
  match v with
  | PNone => false
  | PBool b => b
  | PInt z => negb (z =? 0)
  | PFloat f => negb (PrimFloat.eqb f PrimFloat.zero)
  | PStr s => negb (String.eqb s "")
  | PList l | PTuple l => match l with [] => false | _ => true end
  | PDict d => match d with [] => false | _ => true end
  | PObj _ | PNew _ _ => true
  end.

(** A sequence index [i] into a sequence of length [n]; negative indices
    count from the end. *)
Definition seq_index (n : nat) (i : Z) : option nat :=
  let i' := if i <? 0 then i + Z.of_nat n else i in
  if (0 <=? i') && (i' <? Z.of_nat n) then Some (Z.to_nat i') else None.

Fixpoint string_chars (s : string) : list pyval :=
  match s with
  | EmptyString => []
  | String c t => PStr (String c EmptyString) :: string_chars t
  end.

(** [v[idx]]. *)
Definition py_getitem (v idx : pyval) : result pyval :=
  match v with
  | PDict d =>
      match idx with
      | PList _ | PDict _ => Err TypeError          (* unhashable *)
      | _ => match as_key idx with
             | Some k => match lookup k d with
                         | Some x => Ok x
                         | None => Err KeyError
                         end
             | None => Err KeyError
             end
      end
  | PList l | PTuple l =>
      match idx with
      | PInt _ | PBool _ =>
          match as_key idx with
          | Some (KInt i) =>
              match seq_index (List.length l) i with
              | Some n => match nth_error l n with
                          | Some x => Ok x
                          | None => Err IndexError
                          end
              | None => Err IndexError
              end
          | _ => Err TypeError
          end
      | _ => Err TypeError
      end
  | PStr s =>
      match idx with
      | PInt _ | PBool _ =>
          match as_key idx with
          | Some (KInt i) =>
              match seq_index (String.length s) i with
              | Some n => match nth_error (string_chars s) n with
                          | Some x => Ok x
                          | None => Err IndexError
                          end
              | None => Err IndexError
              end
          | _ => Err TypeError
          end
      | _ => Err TypeError
      end
  | _ => Err TypeError
  end.

Definition getstr (v : pyval) (k : string) : result pyval := py_getitem v (PStr k).

(** [v.get(k, default)]: a method of dictionaries only. *)
Definition py_get (v : pyval) (k : string) (default : pyval) : result pyval :=
  match v with
  | PDict d => match lookup (KStr k) d with
               | Some x => Ok x
               | None => Ok default
               end
  | _ => Err AttributeError
  end.

(** [v.items()]: a method of dictionaries only. *)
Definition py_items (v : pyval) : result (list (pyval * pyval)) :=
  match v with
  | PDict d => Ok (map (fun kv => (key_val (fst kv), snd kv)) d)
  | _ => Err AttributeError
  end.

(** [for x in v]: a dictionary yields its keys. *)
Definition py_iter (v : pyval) : result (list pyval) :=
  match v with
  | PDict d => Ok (map (fun kv => key_val (fst kv)) d)
  | PList l | PTuple l => Ok l
  | PStr s => Ok (string_chars s)
  | _ => Err TypeError
  end.

(** [len(v)]. *)
Definition py_len (v : pyval) : result Z :=
  match v with
  | PDict d => Ok (Z.of_nat (List.length d))
  | PList l | PTuple l => Ok (Z.of_nat (List.length l))
  | PStr s => Ok (Z.of_nat (String.length s))
  | _ => Err TypeError
  end.

(** [v == s] for a string [s]. *)
Definition py_eq_str (v : pyval) (s : string) : bool :=
  match v with PStr t => String.eqb t s | _ => false end.

(** [sub in s] on strings. *)
Fixpoint str_contains (sub s : string) : bool :=
  String.prefix sub s ||
  match s with
  | EmptyString => false
  | String _ t => str_contains sub t
  end.

(** [s in v] for a string [s]. *)
Definition py_in (s : string) (v : pyval) : result bool :=
  match v with
  | PDict d => Ok (match lookup (KStr s) d with Some _ => true | None => false end)
  | PStr t => Ok (str_contains s t)
  | PList l | PTuple l => Ok (existsb (fun x => py_eq_str x s) l)
  | _ => Err TypeError
  end.

(** [str(z)] and ["{}".format(z)] for an integer. *)
Definition str_of_Z (z : Z) : string := NilZero.string_of_int (Z.to_int z).

(** [l[0:stop]]. *)
Definition slice_to (l : list pyval) (stop : Z) : list pyval :=
  let n := Z.of_nat (List.length l) in
  let stop' := if stop <? 0 then Z.max 0 (stop + n) else Z.min stop n in
  firstn (Z.to_nat stop') l.

(** [s[start:]] for [start >= 0]. *)
Definition str_from (start : nat) (s : string) : string :=
  String.substring start (String.length s - start) s.

(** An integer operand: [bool] is a subclass of [int]. *)
Definition as_int (v : pyval) : option Z :=
  match v with
  | PInt z => Some z
  | PBool b => Some (Z.b2z b)
  | _ => None
  end.

(** Identity of framework objects, used for [a == b] on devices. *)
Definition obj_eqb (a b : pyval) : bool :=
  match a, b with
  | PObj x, PObj y => Z.eqb x y
  | _, _ => false
  end.

(** [d[k] = v] on a local dictionary: an existing key keeps its place. *)
Fixpoint dict_set (k : key) (v : pyval) (d : list (key * pyval)) : list (key * pyval) :=
  match d with
  | [] => [(k, v)]
  | (k', v') :: rest =>
      if key_eqb k k' then (k, v) :: rest else (k', v') :: dict_set k v rest
  end.

(* ===================================================================== *)
(** ** Programs over the outside world *)
(* ===================================================================== *)

(** What a getter asks of the world.  Every event is answered by a value
    or by an exception.  [QuestionMarkRetrieve] and
    [GetRunningConfigSectionDict] are helpers of the SDK that take the
    device and are defined outside the two modules embedded here
    (genie.libs.sdk.apis.utils, ...apis.iosxe.running_config.get); their
    whole effect is one event. *)
Inductive event : Type :=
| Parse (device : pyval) (cmd : string)                  (* device.parse(cmd) *)
| ParseOutput (device : pyval) (cmd : string) (output : pyval)
                                                         (* device.parse(cmd, output=output) *)
| Execute (device : pyval) (cmd : string)                (* device.execute(cmd) *)
| Sleep (seconds : Z)                                    (* time.sleep(seconds) *)
| LogInfo (fmt : string) (args : list pyval)             (* log.info(fmt.format(args)) *)
| GetAttr (o : pyval) (attr : string)                    (* o.attr on a framework object *)
| CallMethod (o : pyval) (meth : string) (args : list pyval) (kwargs : list (string * pyval))
                                                         (* o.meth(args, kwargs) *)
| SortInPlace (l : pyval)                                (* l.sort(): answered by l as it stands afterwards *)
| QuestionMarkRetrieve (device : pyval) (cmd state : string)
| GetRunningConfigSectionDict (device : pyval) (keyword : string).

Inductive prog (A : Type) : Type :=
| Ret (a : A)
| Raise (e : exn)
| Vis (ev : event) (k : result pyval -> prog A).
Arguments Ret {A} a.
Arguments Raise {A} e.
Arguments Vis {A} ev k.

Fixpoint prog_bind {A B : Type} (c : prog A) (f : A -> prog B) : prog B :=
  match c with
  | Ret a => f a
  | Raise e => Raise e
  | Vis ev k => Vis ev (fun r => prog_bind (k r) f)
  end.

(** [try: c except e: h e]. *)
Fixpoint prog_catch {A : Type} (c : prog A) (h : exn -> prog A) : prog A :=
  match c with
  | Ret a => Ret a
  | Raise e => h e
  | Vis ev k => Vis ev (fun r => prog_catch (k r) h)
  end.

#[export] Instance Monad_prog : Monad prog :=
  {| ret := fun _ a => Ret a;
     bind := fun _ _ c f => prog_bind c f |}.

#[export] Instance Exc_prog : MonadExc exn prog :=
  {| raise := fun _ e => Raise e;
     catch := fun _ c h => prog_catch c h |}.

(** A call whose exception, if any, propagates. *)
Definition trigger (ev : event) : prog pyval :=
  Vis ev (fun r => match r with Ok v => Ret v | Err e => Raise e end).

(** A call that does not raise: logging and sleeping. *)
Definition perform (ev : event) : prog unit :=
  Vis ev (fun _ => Ret tt).

(** A pure step of the function body. *)
Definition lift {A : Type} (r : result A) : prog A :=
  match r with Ok a => Ret a | Err e => Raise e end.

(** [try: x = ev except cls: return on_cls], then the rest of the body. *)
Definition try_event {A : Type} (ev : event) (cls : exn) (on_cls : prog A)
    (k : pyval -> prog A) : prog A :=
  Vis ev (fun r => match r with
                   | Ok v => k v
                   | Err e => if exn_eqb e cls then on_cls else Raise e
                   end).

(** *** Running a program *)

(** The world: a state and the answer it gives to each event. *)
Definition handler (S : Type) : Type := event -> S -> result pyval * S.

Record outcome (A S : Type) : Type := mkOutcome {
  returned : result A;                         (* what the call returned or raised *)
  transcript : list (event * result pyval);    (* the events, oldest first, and their answers *)
  final : S
}.
Arguments mkOutcome {A S}.
Arguments returned {A S}.
Arguments transcript {A S}.
Arguments final {A S}.

Fixpoint run {A S : Type} (p : prog A) (h : handler S) (s : S) : outcome A S :=
  match p with
  | Ret a => mkOutcome (Ok a) [] s
  | Raise e => mkOutcome (Err e) [] s
  | Vis ev k =>
      let (r, s') := h ev s in
      let o := run (k r) h s' in
      mkOutcome (returned o) ((ev, r) :: transcript o) (final o)
  end.

Definition events {A S : Type} (o : outcome A S) : list event := map fst (transcript o).
Definition answers {A S : Type} (o : outcome A S) : list (result pyval) := map snd (transcript o).

(** A world that answers from a script, one answer per event, and with
    [None] once the script is exhausted. *)
Definition scripted : handler (list (result pyval)) :=
  fun _ s => match s with
             | [] => (Ok PNone, [])
             | r :: rest => (r, rest)
             end.

(** A device that answers each command the same way every time. *)
Definition stateless (f : event -> result pyval) : handler unit :=
  fun ev s => (f ev, s).

(* ===================================================================== *)
(** ** What the getters import *)
(* ===================================================================== *)

(** A match object of [re]: [m.group()] and [m.groupdict()]. *)
Record re_match_obj : Type := mkMatch {
  group0 : string;
  groupdict : list (key * pyval)
}.

(** Pure functions the two modules call but do not define: helpers of the
    SDK and of the parser package, the [re] module, and the parts of
    Python's strings and numbers whose exact behaviour (Unicode case
    mapping, line boundaries, float arithmetic) is the interpreter's.
    The getters are defined for any implementation of them. *)
Record externals : Type := mkExternals {
  convert_intf_name : string -> string;                   (* Common.convert_intf_name *)
  get_config_dict : pyval -> result pyval;                (* apis.utils.get_config_dict *)
  int_to_mask : pyval -> result pyval;                    (* apis.utils.int_to_mask *)
  get_delta_time_from_outputs : pyval -> pyval -> result pyval;
                                                          (* apis.utils.get_delta_time_from_outputs *)
  find : list pyval -> pyval -> result pyval;             (* find(from, reqs, filter_=False, all_keys=True) *)
  group_keys : pyval -> pyval -> result pyval;            (* GroupKeys.group_keys(reqs, {}, source, all_keys=True) *)
  re_search : string -> string -> option re_match_obj;    (* re.compile(pattern).search(text) *)
  re_match : string -> string -> option re_match_obj;     (* re.compile(pattern).match(text) *)
  str_capitalize : string -> string;                      (* s.capitalize() *)
  str_strip : string -> string;                           (* s.strip() *)
  str_splitlines : string -> list string;                 (* s.splitlines() *)
  py_int : pyval -> result pyval;                         (* int(v) *)
  num_sub : pyval -> pyval -> result pyval;               (* a - b when an operand is not an integer *)
  truediv : pyval -> pyval -> result pyval;               (* a / b *)
  round2 : pyval -> result pyval                          (* round(v, 2) *)
}.

(** The newline character. *)
Definition nl : string := String (ascii_of_nat 10) EmptyString.

(** [sep.join(v)]: every item must be a string. *)
Fixpoint join_strs (sep : string) (l : list pyval) : result string :=
  match l with
  | [] => Ok ""
  | PStr s :: rest =>
      match rest with
      | [] => Ok s
      | _ => match join_strs sep rest with
             | Ok t => Ok (s ++ sep ++ t)
             | Err e => Err e
             end
      end
  | _ :: _ => Err TypeError
  end.

Definition py_join (sep : string) (v : pyval) : result string :=
  match py_iter v with
  | Ok l => join_strs sep l
  | Err e => Err e
  end.

(** [a and b] on conditions that may raise; [b] is used only when [a] holds. *)
Definition and_then (a b : result bool) : result bool :=
  match a with
  | Ok true => b
  | Ok false => Ok false
  | Err e => Err e
  end.

(** *** [sorted] on dictionary keys *)

Fixpoint insert_by {A : Type} (leb : A -> A -> bool) (x : A) (l : list A) : list A :=
  match l with
  | [] => [x]
  | y :: t => if leb x y then x :: y :: t else y :: insert_by leb x t
  end.

Fixpoint sort_by {A : Type} (leb : A -> A -> bool) (l : list A) : list A :=
  match l with
  | [] => []
  | x :: t => insert_by leb x (sort_by leb t)
  end.

Definition same_kind (a b : key) : bool :=
  match a, b with
  | KStr _, KStr _ | KInt _, KInt _ => true
  | _, _ => false
  end.

(** Python orders strings by code point and integers by value; it refuses
    to compare a string with an integer. *)
Definition key_leb (a b : key) : bool :=
  match a, b with
  | KStr x, KStr y => String.leb x y
  | KInt x, KInt y => x <=? y
  | _, _ => false
  end.

Definition py_sorted (l : list key) : result (list key) :=
  match l with
  | [] => Ok []
  | k :: rest =>
      if forallb (same_kind k) rest then Ok (sort_by key_leb l) else Err TypeError
  end.

(** [v.keys()]: a method of dictionaries only. *)
Definition dict_keys (v : pyval) : result (list key) :=
  match v with
  | PDict d => Ok (map fst d)
  | _ => Err AttributeError
  end.

(* ===================================================================== *)
(** ** [ipaddress.IPv4Address] on dotted-quad strings *)
(* ===================================================================== *)

(** [s.split(c)]: at least one piece. *)
Fixpoint split_on (c : ascii) (s : string) : list string :=
  match s with
  | EmptyString => [EmptyString]
  | String a t =>
      if Ascii.eqb a c then EmptyString :: split_on c t
      else match split_on c t with
           | [] => [String a EmptyString]
           | h :: r => String a h :: r
           end
  end.

Definition is_digit (a : ascii) : bool :=
  let n := Z.of_nat (nat_of_ascii a) in (48 <=? n) && (n <=? 57).

Fixpoint all_digits (s : string) : bool :=
  match s with
  | EmptyString => true
  | String a t => is_digit a && all_digits t
  end.

(** The value of a string of decimal digits, most significant first. *)
Fixpoint decimal_value (acc : Z) (s : string) : Z :=
  match s with
  | EmptyString => acc
  | String a t => decimal_value (10 * acc + (Z.of_nat (nat_of_ascii a) - 48)) t
  end.

(** [IPv4Address._parse_octet]: one to three ASCII digits, no leading
    zero except for "0" itself, at most 255. *)
Definition parse_octet (octet_str : string) : result Z :=
  match octet_str with
  | EmptyString => Err ValueError
  | String first _ =>
      if negb (all_digits octet_str) then Err ValueError
      else if (3 <? String.length octet_str)%nat then Err ValueError
      else if negb (String.eqb octet_str "0") && Ascii.eqb first "0"%char then Err ValueError
      else
        let octet_int := decimal_value 0 octet_str in
        if 255 <? octet_int then Err ValueError else Ok octet_int
  end.

(** [IPv4Address(address)] for a string: the address as the integer that
    the class compares by.  [AddressValueError] is a [ValueError]. *)
Definition IPv4Address (address : string) : result Z :=
  if str_contains "/" address then Err ValueError
  else if String.eqb address "" then Err ValueError
  else
    match split_on "."%char address with
    | [a; b; c; d] =>
        a <- parse_octet a ;;
        b <- parse_octet b ;;
        c <- parse_octet c ;;
        d <- parse_octet d ;;
        ret (((a * 256 + b) * 256 + c) * 256 + d)
    | _ => Err ValueError
    end.

(* ===================================================================== *)
(** ** interface/get.py *)
(* ===================================================================== *)

Module Interface.
Section Getters.

Variable X : externals.

(** [get_neighbor_interface_and_device(device, interface_alias)] *)
Definition get_neighbor_interface_and_device (device : pyval) (interface_alias : string)
    : prog pyval :=
  interfaces <- trigger (GetAttr device "interfaces") ;;
  i <- lift (getstr interfaces interface_alias) ;;
  interface <- trigger (GetAttr i "name") ;;
  interfaces <- trigger (GetAttr device "interfaces") ;;
  i <- lift (getstr interfaces interface_alias) ;;
  link <- trigger (GetAttr i "link") ;;
  name <- trigger (GetAttr device "name") ;;
  interface_list <- trigger (CallMethod link "find_interfaces" []
                               [("device__name", PNew "Not" [name])]) ;;
  if truthy interface_list then
    neighbor_interface <- lift (py_getitem interface_list (PInt 0)) ;;
    dname <- trigger (GetAttr device "name") ;;
    nname <- trigger (GetAttr neighbor_interface "name") ;;
    ndev <- trigger (GetAttr neighbor_interface "device") ;;
    ndname <- trigger (GetAttr ndev "name") ;;
    perform (LogInfo ("Found interface {intf} on {device.name} has neighbor "
                      ++ "interface {neighbor_intf.name} on {neighbor_intf.device.name}")
                     [interface; dname; nname; ndname]) ;;
    nname <- trigger (GetAttr neighbor_interface "name") ;;
    ndev <- trigger (GetAttr neighbor_interface "device") ;;
    ret (PTuple [nname; ndev])
  else
    ret (PTuple [PNone; PNone]).

(** [get_interface_mtu_size(device, interface)] *)
Definition get_interface_mtu_size (device : pyval) (interface : string) : prog pyval :=
  try_event (Parse device ("show interfaces " ++ interface)) SchemaEmptyParserError
    (ret PNone)
    (fun out =>
       lift (o <- getstr out interface ;; getstr o "mtu")).

(** [get_interface_mtu_config_range(device, interface)] *)
Definition get_interface_mtu_config_range (device : pyval) (interface : string) : prog pyval :=
  let cmd := "conf t" ++ nl ++ "interface " ++ interface ++ nl ++ "mtu " in
  out <- trigger (QuestionMarkRetrieve device cmd "config") ;;
  match out with
  | PStr text =>
      match re_search X "<(?P<min>\d+)-(?P<max>\d+)>" text with
      | Some m =>
          lift (smin <- getstr (PDict (groupdict m)) "min" ;;
                vmin <- py_int X smin ;;
                smax <- getstr (PDict (groupdict m)) "max" ;;
                vmax <- py_int X smax ;;
                ret (PDict [(KStr "range", PStr (group0 m));
                            (KStr "min", vmin);
                            (KStr "max", vmax)]))
      | None => ret PNone
      end
  | _ => raise TypeError
  end.

(** [get_interface_mac_address(device, interface)] *)
Definition get_interface_mac_address (device : pyval) (interface : string) : prog pyval :=
  name <- trigger (GetAttr device "name") ;;
  perform (LogInfo "Getting mac address for {} on {}" [PStr interface; name]) ;;
  try_event (Parse device ("show interfaces " ++ interface)) SchemaEmptyParserError
    (ret PNone)
    (fun out =>
       lift (o <- getstr out interface ;; getstr o "mac_address")).

(** The loop of [get_interface_without_service_policy]: [Some v] is
    [return v], [None] is the loop running to its end. *)
Fixpoint without_service_policy_loop (pattern interface_type : string)
    (items : list (pyval * pyval)) : result (option pyval) :=
  match items with
  | [] => Ok None
  | (intf, config) :: rest =>
      match intf with
      | PStr name =>
          if String.prefix ("interface " ++ interface_type) name then
            cfg <- py_join nl config ;;
            if negb (str_contains "service-policy" cfg) then
              match re_search X pattern name with
              | Some m =>
                  v <- getstr (PDict (groupdict m)) "intf" ;;
                  ret (Some v)
              | None =>                      (* AttributeError, caught: continue *)
                  without_service_policy_loop pattern interface_type rest
              end
            else without_service_policy_loop pattern interface_type rest
          else without_service_policy_loop pattern interface_type rest
      | _ => Err AttributeError              (* no startswith on a key that is not a string *)
      end
  end.

(** [get_interface_without_service_policy(device, interface_type, virtual_interface=False)] *)
Definition get_interface_without_service_policy (device : pyval) (interface_type : string)
    (virtual_interface : bool) : prog pyval :=
  let p := if negb virtual_interface
           then "interface +(?P<intf>(?!\S+\.\S*)\S+)"
           else "interface +(?P<intf>\S+)" in
  config_dict <- trigger (GetRunningConfigSectionDict device "interface") ;;
  items <- lift (py_items config_dict) ;;
  r <- lift (without_service_policy_loop p interface_type items) ;;
  match r with
  | Some v => ret v
  | None => ret PNone
  end.

(** [get_interface_qlimit_bytes(device, interface)] *)
Definition get_interface_qlimit_bytes (device : pyval) (interface : string) : prog pyval :=
  try_event
    (Parse device ("show platform hardware qfp active infrastructure bqs "
                   ++ "queue output default interface " ++ interface))
    SchemaEmptyParserError
    (ret PNone)
    (fun out =>
       let reqs_args := [PList [PStr interface; PStr "index"; PStr "(?P<index>.*)";
                                PStr "software_control_info"; PStr "qlimit_bytes";
                                PStr "(?P<qlimit>.*)"]] in
       let reqs := PNew "R" reqs_args in
       found <- lift (find X [out] reqs) ;;
       if truthy found then
         lift (keys <- group_keys X (PTuple reqs_args) found ;;
               k0 <- py_getitem keys (PInt 0) ;;
               getstr k0 "qlimit")
       else ret PNone).

(** [get_interface_ip_address(device, interface)] *)
Definition get_interface_ip_address (device : pyval) (interface : string) : prog pyval :=
  name <- trigger (GetAttr device "name") ;;
  perform (LogInfo "Getting interface address for {interface} on {device}"
                   [PStr interface; name]) ;;
  try_event (Parse device ("show ip interface brief " ++ interface)) SchemaEmptyParserError
    (ret PNone)
    (fun out =>
       lift (oi <- getstr out "interface" ;;
             entry <- py_get oi interface (PDict []) ;;
             address <- py_get entry "ip_address" PNone ;;
             oi <- getstr out "interface" ;;
             present <- py_in interface oi ;;
             if negb present then ret PNone
             else
               oi <- getstr out "interface" ;;
               entry <- getstr oi interface ;;
               has_ip <- py_in "ip_address" entry ;;
               if negb has_ip || py_eq_str address "unassigned" then ret PNone
               else
                 oi <- getstr out "interface" ;;
                 entry <- getstr oi interface ;;
                 getstr entry "ip_address")).

(** The loop of [get_interface_loopback_ip_address] over the sorted keys. *)
Fixpoint loopback_loop (out : pyval) (num : Z) (keys : list key) (count : Z)
    (ip_addresses : list pyval) : result (list pyval) :=
  match keys with
  | [] => Ok ip_addresses
  | intf :: rest =>
      is_loopback <- py_in "Loopback" (key_val intf) ;;
      if is_loopback : bool then
        let count := count + 1 in
        oi <- getstr out "interface" ;;
        entry <- py_getitem oi (key_val intf) ;;
        ip <- getstr entry "ip_address" ;;
        let ip_addresses := (ip_addresses ++ [PTuple [key_val intf; ip]])%list in
        if count =? num then Ok ip_addresses            (* break *)
        else loopback_loop out num rest count ip_addresses
      else loopback_loop out num rest count ip_addresses
  end.

(** [get_interface_loopback_ip_address(device, num=1)] *)
Definition get_interface_loopback_ip_address (device : pyval) (num : Z) : prog pyval :=
  try_event (Parse device "show ip interface brief | include Loopback") SchemaEmptyParserError
    (ret (PList []))
    (fun out =>
       lift (oi <- getstr out "interface" ;;
             keys <- dict_keys oi ;;
             sorted <- py_sorted keys ;;
             l <- loopback_loop out num sorted 0 [] ;;
             ret (PList l))).

(** [get_unused_loopback_interface(device)] *)
Definition get_unused_loopback_interface (device : pyval) : prog pyval :=
  try_event (Parse device "show ip interface brief | include Loopback") SchemaEmptyParserError
    (ret (PStr "Loopback0"))
    (fun out =>
       if truthy out then
         lift (oi <- getstr out "interface" ;;
               keys <- dict_keys oi ;;
               sorted <- py_sorted keys ;;
               loopback <- py_getitem (PList (map key_val sorted)) (PInt (-1)) ;;
               match loopback with
               | PStr s =>
                   n <- py_int X (PStr (str_from (String.length "Loopback") s)) ;;
                   match as_int n with
                   | Some z => ret (PStr ("Loopback" ++ str_of_Z (z + 1)))
                   | None => Err TypeError
                   end
               | _ => Err TypeError           (* an integer key has no slice *)
               end)
       else ret PNone).

(** The loops of [get_interface_with_mask]: [Some v] is [return v]. *)
Fixpoint with_mask_inner (out intf : pyval) (address_family netmask : string)
    (ips : list pyval) : result (option pyval) :=
  match ips with
  | [] => Ok None
  | ip :: rest =>
      e <- py_getitem out intf ;;
      af <- getstr e address_family ;;
      d <- py_getitem af ip ;;
      plen <- getstr d "prefix_length" ;;
      if py_eq_str plen netmask then
        e <- py_getitem out intf ;;
        af <- getstr e address_family ;;
        d <- py_getitem af ip ;;
        ip_address <- getstr d "ip" ;;
        ret (Some (PTuple [intf; ip_address]))
      else with_mask_inner out intf address_family netmask rest
  end.

Fixpoint with_mask_loop (out : pyval) (address_family netmask : string)
    (intfs : list pyval) : result (option pyval) :=
  match intfs with
  | [] => Ok None
  | intf :: rest =>
      e <- py_getitem out intf ;;
      has_af <- py_in address_family e ;;
      if has_af : bool then
        e <- py_getitem out intf ;;
        af <- getstr e address_family ;;
        ips <- py_iter af ;;
        r <- with_mask_inner out intf address_family netmask ips ;;
        match r with
        | Some v => ret (Some v)
        | None => with_mask_loop out address_family netmask rest
        end
      else with_mask_loop out address_family netmask rest
  end.

(** [get_interface_with_mask(device, netmask="30", address_family="ipv4")];
    [netmask] is a string, so [str(netmask)] is [netmask]. *)
Definition get_interface_with_mask (device : pyval) (netmask address_family : string)
    : prog pyval :=
  try_event (Parse device "show interfaces") SchemaEmptyParserError
    (ret (PTuple [PNone; PNone]))
    (fun out =>
       lift (intfs <- py_iter out ;;
             r <- with_mask_loop out address_family netmask intfs ;;
             match r with
             | Some v => ret v
             | None => ret (PTuple [PNone; PNone])
             end)).

(** The loop of [get_interface_with_up_state]. *)
Fixpoint with_up_state_loop (virtual_interface : option bool)
    (items : list (pyval * pyval)) : result (option pyval) :=
  match items with
  | [] => Ok None
  | (interface, interface_data) :: rest =>
      status <- getstr interface_data "oper_status" ;;
      if py_eq_str status "up" then
        match virtual_interface with
        | None => ret (Some interface)
        | Some flag =>
            dotted <- py_in "." interface ;;
            if Bool.eqb flag dotted then ret (Some interface)
            else with_up_state_loop virtual_interface rest
        end
      else with_up_state_loop virtual_interface rest
  end.

(** [get_interface_with_up_state(device, interface_type, virtual_interface=None)] *)
Definition get_interface_with_up_state (device : pyval) (interface_type : string)
    (virtual_interface : option bool) : prog pyval :=
  let cmd := "show ip interface | include ^" ++ interface_type in
  try_event (Parse device cmd) SchemaEmptyParserError
    (ret PNone)
    (fun out =>
       lift (items <- py_items out ;;
             r <- with_up_state_loop virtual_interface items ;;
             match r with
             | Some v => ret v
             | None => ret PNone
             end)).

(** [get_interface_carrier_delay(device, interface, delay_type)] *)
Definition get_interface_carrier_delay (device : pyval) (interface delay_type : string)
    : prog pyval :=
  try_event (Parse device ("show interfaces " ++ interface)) SchemaEmptyParserError
    (ret PNone)
    (fun out =>
       lift (intf_dict <- getstr out interface ;;
             let key := "carrier_delay_" ++ delay_type in
             has_key <- py_in key intf_dict ;;
             if has_key : bool then getstr intf_dict key else ret PNone)).

(** The loop of [get_interface_ip_and_mask]: the inner loop stops at its
    first item, the outer one visits every interface. *)
Fixpoint ip_and_mask_loop (prefix : bool) (items : list (pyval * pyval))
    (ip mask : pyval) : result (pyval * pyval) :=
  match items with
  | [] => Ok (ip, mask)
  | (interface, interface_data) :: rest =>
      ks <- dict_keys interface_data ;;
      if existsb (key_eqb (KStr "ipv4")) ks then
        v4 <- getstr interface_data "ipv4" ;;
        its <- py_items v4 ;;
        match its with
        | [] => ip_and_mask_loop prefix rest ip mask
        | (ipv4, ip_data) :: _ =>
            ip' <- (if prefix then ret ipv4 else getstr ip_data "ip") ;;
            plen <- getstr ip_data "prefix_length" ;;
            mask' <- int_to_mask X plen ;;
            ip_and_mask_loop prefix rest ip' mask'
        end
      else ip_and_mask_loop prefix rest ip mask
  end.

(** [get_interface_ip_and_mask(device, interface, prefix=False)] *)
Definition get_interface_ip_and_mask (device : pyval) (interface : string) (prefix : bool)
    : prog pyval :=
  try_event (Parse device ("show interfaces " ++ interface)) SchemaEmptyParserError
    (ret (PTuple [PNone; PNone]))
    (fun out =>
       lift (items <- py_items out ;;
             r <- ip_and_mask_loop prefix items PNone PNone ;;
             ret (PTuple [fst r; snd r]))).

(** [get_interface_interfaces(device, link_name=None, opposite=False, num=0)] *)
Definition get_interface_interfaces (device : pyval) (link_name : option string)
    (opposite : bool) (num : Z) : prog pyval :=
  intf_list <-
    match link_name with
    | Some alias =>
        if negb (String.eqb alias "") then
          interfaces <- trigger (GetAttr device "interfaces") ;;
          i <- lift (getstr interfaces alias) ;;
          link <- trigger (GetAttr i "link") ;;
          name <- trigger (GetAttr device "name") ;;
          trigger (CallMethod link "find_interfaces" []
                     [("device__name", if opposite then PNew "Not" [name] else name)])
        else trigger (CallMethod device "find_interfaces" [] [])
    | None => trigger (CallMethod device "find_interfaces" [] [])
    end ;;
  if truthy intf_list then
    intf_list <- trigger (SortInPlace intf_list) ;;
    n <- lift (if 0 <? num then py_len intf_list else Ok 0) ;;
    if (0 <? num) && (num <=? n) then lift (py_getitem intf_list (PInt (num - 1)))
    else ret intf_list
  else ret (PDict []).

(** [get_interface_interfaces_under_vrf(device, vrf)] *)
Definition get_interface_interfaces_under_vrf (device : pyval) (vrf : string) : prog pyval :=
  try_event (Parse device ("show vrf " ++ vrf)) SchemaEmptyParserError
    (ret (PList []))
    (fun out =>
       lift (c <- and_then (Ok (truthy out))
                  (and_then (py_in "vrf" out)
                  (and_then (v <- getstr out "vrf" ;; py_in vrf v)
                            (v <- getstr out "vrf" ;; e <- getstr v vrf ;;
                             py_in "interfaces" e))) ;;
             if c : bool then
               v <- getstr out "vrf" ;; e <- getstr v vrf ;; getstr e "interfaces"
             else ret (PList []))).

(** [get_interface_running_config(device, interface)] *)
Definition get_interface_running_config (device : pyval) (interface : string) : prog pyval :=
  let interface := convert_intf_name X interface in
  try_event (Execute device ("show running-config interface " ++ interface)) SubCommandFailure
    (ret (PDict []))
    (fun output => lift (get_config_dict X output)).

(** [output[interface].get("counters", {}).get(counter_field, None)] *)
Definition read_counter (interface counter_field : string) (output : pyval) : result pyval :=
  e <- getstr output interface ;;
  counters <- py_get e "counters" (PDict []) ;;
  py_get counters counter_field PNone.

(** [get_interface_packet_counter(device, interface, counter_field, output=None)] *)
Definition get_interface_packet_counter (device : pyval) (interface counter_field : string)
    (output : pyval) : prog pyval :=
  if negb (truthy output) then
    try_event (Parse device ("show interfaces " ++ interface)) SchemaEmptyParserError
      (ret PNone)
      (fun output => lift (read_counter interface counter_field output))
  else lift (read_counter interface counter_field output).

(** The loop of [get_neighboring_device_interface] over the interfaces of
    the link; [topology_devices] is the local dictionary it fills. *)
Fixpoint neighboring_loop (device : pyval) (its : list pyval)
    (topology_devices : list (key * pyval)) : prog (list (key * pyval)) :=
  match its with
  | [] => ret topology_devices
  | it :: rest =>
      d <- trigger (GetAttr it "device") ;;
      let uplink_var := if obj_eqb d device then "uplink1" else "uplink2" in
      (* topology_devices.setdefault(uplink_var, {}).setdefault("name", it.name) *)
      let entry := match lookup (KStr uplink_var) topology_devices with
                   | Some (PDict e) => e
                   | _ => []
                   end in
      name <- trigger (GetAttr it "name") ;;
      let entry := match lookup (KStr "name") entry with
                   | Some _ => entry
                   | None => (entry ++ [(KStr "name", name)])%list
                   end in
      (* topology_devices[uplink_var]["device"] = it.device *)
      d <- trigger (GetAttr it "device") ;;
      let entry := dict_set (KStr "device") d entry in
      neighboring_loop device rest (dict_set (KStr uplink_var) (PDict entry) topology_devices)
  end.

(** [get_neighboring_device_interface(device, testbed, interface)] *)
Definition get_neighboring_device_interface (device testbed : pyval) (interface : string)
    : prog pyval :=
  perform (LogInfo "Finding the neighbor device of the uplink interface : {interface}"
                   [PStr interface]) ;;
  links <- trigger (CallMethod testbed "find_links" [] []) ;;
  link <- trigger (CallMethod links "pop" [] []) ;;
  found <- trigger (CallMethod link "find_interfaces" [] []) ;;
  its <- lift (py_iter found) ;;
  topology_devices <- neighboring_loop device its [] ;;
  uplink2 <- lift (getstr (PDict topology_devices) "uplink2") ;;
  name <- lift (getstr uplink2 "name") ;;
  if truthy name then
    name <- lift (u <- getstr (PDict topology_devices) "uplink2" ;; getstr u "name") ;;
    dev <- lift (u <- getstr (PDict topology_devices) "uplink2" ;; getstr u "device") ;;
    perform (LogInfo ("Successfully found neighbor device : {neighbor_device} "
                      ++ "for interface : {interface}") [name; dev]) ;;
    ret (PDict topology_devices)
  else ret (PDict []).

(** [get_interface_connected_adjacent_router_interfaces(device, link_name, num=1)] *)
Definition get_interface_connected_adjacent_router_interfaces (device : pyval)
    (link_name : string) (num : Z) : prog pyval :=
  r <- catch (interfaces <- trigger (GetAttr device "interfaces") ;;
              i <- lift (getstr interfaces link_name) ;;
              ret (Some i))
             (fun e => match e with
                       | KeyError => ret None
                       | _ => raise e
                       end) ;;
  match r with
  | None => ret PNone
  | Some interface =>
      remote <- trigger (GetAttr interface "remote_interfaces") ;;
      remote_interfaces <- lift (py_iter remote) ;;
      match remote_interfaces with
      | [] => ret PNone
      | _ => ret (PList (slice_to remote_interfaces num))
      end
  end.

(** The loop of [get_bundled_interface] over the members of the channel. *)
Fixpoint bundled_loop (out : pyval) (pc : string) (exclude_interface : option string)
    (members : list pyval) : result (option pyval) :=
  match members with
  | [] => Ok None
  | intf :: rest =>
      i <- getstr out "interfaces" ;;
      c <- getstr i pc ;;
      m <- getstr c "members" ;;
      e <- py_getitem m intf ;;
      b <- getstr e "bundled" ;;
      if truthy b then
        match exclude_interface with
        | Some x =>
            if negb (String.eqb x "") && py_eq_str intf x
            then bundled_loop out pc exclude_interface rest      (* continue *)
            else ret (Some intf)
        | None => ret (Some intf)
        end
      else bundled_loop out pc exclude_interface rest
  end.

(** [get_bundled_interface(device, port_channel, exclude_interface=None)];
    the call to [parse] is not inside a [try]. *)
Definition get_bundled_interface (device : pyval) (port_channel : string)
    (exclude_interface : option string) : prog pyval :=
  out <- trigger (Parse device "show etherchannel summary") ;;
  let pc := str_capitalize X port_channel in
  lift (c <- and_then (Ok (truthy out))
             (and_then (py_in "interfaces" out)
             (and_then (i <- getstr out "interfaces" ;; py_in pc i)
                       (i <- getstr out "interfaces" ;; e <- getstr i pc ;;
                        py_in "members" e))) ;;
        if c : bool then
          i <- getstr out "interfaces" ;;
          e <- getstr i pc ;;
          m <- getstr e "members" ;;
          members <- py_iter m ;;
          r <- bundled_loop out pc exclude_interface members ;;
          match r with
          | Some v => ret v
          | None => ret PNone
          end
        else ret PNone).

(** The loop of [get_interface_address_mask_running_config] over the lines. *)
Fixpoint address_mask_loop (lines : list string) : result pyval :=
  match lines with
  | [] => Ok PNone
  | line :: rest =>
      let line := str_strip X line in
      match re_match X "ip\s+address\s+(?P<address>\S+)\s+(?P<mask>\S+)" line with
      | Some m =>
          ip_address <- getstr (PDict (groupdict m)) "address" ;;
          mask <- getstr (PDict (groupdict m)) "mask" ;;
          ret (PTuple [ip_address; mask])
      | None => address_mask_loop rest
      end
  end.

(** [get_interface_address_mask_running_config(device, interface)] *)
Definition get_interface_address_mask_running_config (device : pyval) (interface : string)
    : prog pyval :=
  let interface := convert_intf_name X interface in
  try_event (Execute device ("show running-config interface " ++ interface)) SubCommandFailure
    (ret (PTuple [PNone; PNone]))
    (fun output =>
       if negb (truthy output) then ret (PTuple [PNone; PNone])
       else match output with
            | PStr text => lift (address_mask_loop (str_splitlines X text))
            | _ => raise AttributeError       (* no splitlines *)
            end).

(** [a - b]: exact on integers, the interpreter's otherwise. *)
Definition py_sub (a b : pyval) : result pyval :=
  match as_int a, as_int b with
  | Some x, Some y => Ok (PInt (x - y))
  | _, _ => num_sub X a b
  end.

(** [get_interface_packet_output_rate(device, interface, seconds=60)].
    Inside the [try], [inl v] is [return v] and [inr rate] is the body
    running to its end. *)
Definition get_interface_packet_output_rate (device : pyval) (interface : string)
    (seconds : Z) : prog pyval :=
  if seconds <=? 0 then ret PNone
  else
    let cmd := "show interfaces " ++ interface in
    r <- catch
           (output_before <- trigger (Execute device cmd) ;;
            perform (LogInfo "Waiting {secs} seconds" [PInt seconds]) ;;
            perform (Sleep seconds) ;;
            output_after <- trigger (Execute device cmd) ;;
            parsed_output_before <- trigger (ParseOutput device cmd output_before) ;;
            parsed_output_after <- trigger (ParseOutput device cmd output_after) ;;
            delta_time <- lift (get_delta_time_from_outputs X output_before output_after) ;;
            counter_before <- get_interface_packet_counter device interface "out_pkts"
                                parsed_output_before ;;
            if negb (truthy counter_before) then ret (inl PNone)
            else
              counter_after <- get_interface_packet_counter device interface "out_pkts"
                                 parsed_output_after ;;
              if negb (truthy counter_after) then ret (inl PNone)
              else
                diff <- lift (py_sub counter_after counter_before) ;;
                quotient <- lift (truediv X diff delta_time) ;;
                output_rate <- lift (round2 X quotient) ;;
                ret (inr output_rate))
           (fun e => match e with
                     | SchemaEmptyParserError => ret (inl PNone)
                     | ValueError => ret (inl PNone)
                     | _ => raise e
                     end) ;;
    match r with
    | inl v => ret v
    | inr output_rate =>
        perform (LogInfo "Packet output rate for interface {intf} is {count}"
                         [PStr interface; output_rate]) ;;
        ret output_rate
    end.

(** [get_interface_switchport_access_vlan(device, interface)] *)
Definition get_interface_switchport_access_vlan (device : pyval) (interface : string)
    : prog pyval :=
  perform (LogInfo "Getting access_vlan under {}" [PStr interface]) ;;
  try_event (Parse device "show interfaces switchport") SchemaEmptyParserError
    (ret PNone)
    (fun out =>
       lift (c <- and_then (Ok (truthy out))
                  (and_then (py_in interface out)
                            (e <- getstr out interface ;; py_in "access_vlan" e)) ;;
             if c : bool then e <- getstr out interface ;; getstr e "access_vlan"
             else ret PNone)).

(** [get_interface_port_channel_members(device, interface)] *)
Definition get_interface_port_channel_members (device : pyval) (interface : string)
    : prog pyval :=
  try_event (Parse device ("show interfaces " ++ interface)) SchemaEmptyParserError
    (ret PNone)
    (fun out =>
       lift (catch (e <- getstr out interface ;;
                    pc <- getstr e "port_channel" ;;
                    getstr pc "port_channel_member_intfs")
                   (fun e => match e with
                             | KeyError => ret PNone
                             | _ => raise e
                             end))).

(** The loop of [get_interface_netmask] over [ip_class]. *)
Fixpoint netmask_loop (ip_addr : Z) (ip_class : list (string * Z)) : pyval :=
  match ip_class with
  | [] => PNone
  | e :: rest => if ip_addr <? snd e then PStr (fst e) else netmask_loop ip_addr rest
  end.

(** [get_interface_netmask(ip_address)] *)
Definition get_interface_netmask (ip_address : string) : result pyval :=
  class_a <- IPv4Address "127.0.0.0" ;;
  class_b <- IPv4Address "191.255.0.0" ;;
  class_c <- IPv4Address "223.255.255.0" ;;
  ip_addr <- IPv4Address ip_address ;;
  let ip_class := [("/8", class_a); ("/16", class_b); ("/24", class_c)] in
  ret (netmask_loop ip_addr ip_class).

End Getters.
End Interface.

(* ===================================================================== *)
(** ** mpls/get.py *)
(* ===================================================================== *)

Module Mpls.
Section Getters.

Variable X : externals.

(** [[Common.convert_intf_name(intf) for intf in keys]]: the helper
    works on strings. *)
Fixpoint convert_all (keys : list key) : result (list pyval) :=
  match keys with
  | [] => Ok []
  | KStr intf :: rest =>
      l <- convert_all rest ;;
      ret (PStr (convert_intf_name X intf) :: l)
  | KInt _ :: _ => Err TypeError
  end.

(** [get_interface_interfaces_ldp_enabled(device, vrf="")] *)
Definition get_interface_interfaces_ldp_enabled (device : pyval) (vrf : string) : prog pyval :=
  try_event (Parse device "show mpls interfaces detail") SchemaEmptyParserError
    (ret (PList []))
    (fun out =>
       let vrf := if negb (String.eqb vrf "") then vrf else "default" in
       r <- lift (catch (v <- getstr out "vrf" ;;
                         e <- getstr v vrf ;;
                         i <- getstr e "interfaces" ;;
                         keys <- dict_keys i ;;
                         ret (Some keys))
                        (fun e => match e with
                                  | KeyError => ret None
                                  | _ => raise e
                                  end)) ;;
       match r with
       | None => ret (PList [])
       | Some keys => l <- lift (convert_all keys) ;; ret (PList l)
       end).

(** The loop of [get_mpls_interface_ldp_configured]. *)
Fixpoint ldp_configured_loop (items : list (pyval * pyval)) (interfaces : list pyval)
    : result (list pyval) :=
  match items with
  | [] => Ok interfaces
  | (intf, data_dict) :: rest =>
      configured <- py_in "mpls label protocol ldp" data_dict ;;
      if configured : bool then
        match intf with
        | PStr name =>
            match re_match X "^interface +(?P<name>[\S\s]+)$" name with
            | Some m =>
                v <- getstr (PDict (groupdict m)) "name" ;;
                ldp_configured_loop rest (interfaces ++ [v])%list
            | None => Err AttributeError        (* None has no groupdict *)
            end
        | _ => Err TypeError
        end
      else ldp_configured_loop rest interfaces
  end.

(** [get_mpls_interface_ldp_configured(device)] *)
Definition get_mpls_interface_ldp_configured (device : pyval) : prog pyval :=
  intf_dict <- trigger (GetRunningConfigSectionDict device "interface") ;;
  items <- lift (py_items intf_dict) ;;
  l <- lift (ldp_configured_loop items []) ;;
  ret (PList l).

(** The loop of [get_mpls_ldp_session_count] over the VRFs. *)
Fixpoint session_count_loop (output_ldp : pyval) (vrfs : list pyval) (ldp_session_count : Z)
    : result Z :=
  match vrfs with
  | [] => Ok ldp_session_count
  | vrf :: rest =>
      v <- getstr output_ldp "vrf" ;;
      e <- py_getitem v vrf ;;
      peers <- getstr e "peers" ;;
      keys <- dict_keys peers ;;
      session_count_loop output_ldp rest (ldp_session_count + Z.of_nat (List.length keys))
  end.

(** [get_mpls_ldp_session_count(device)] *)
Definition get_mpls_ldp_session_count (device : pyval) : prog pyval :=
  perform (LogInfo "Getting LDP neighbor count" []) ;;
  let ldp_session_count := 0 in
  try_event (Parse device "show mpls ldp neighbor") SchemaEmptyParserError
    (ret (PInt ldp_session_count))
    (fun output_ldp =>
       n <- lift (v <- getstr output_ldp "vrf" ;;
                  vrfs <- py_iter v ;;
                  session_count_loop output_ldp vrfs ldp_session_count) ;;
       perform (LogInfo "LDP neighbor count is {}" [PInt n]) ;;
       ret (PInt n)).

(** The three nested loops of [get_mpls_ldp_peer_state]: [Some v] is
    [return v]. *)
Fixpoint peer_state_indexes (out vrf peer : pyval) (interface : string)
    (indexes : list pyval) : result (option pyval) :=
  match indexes with
  | [] => Ok None
  | index :: rest =>
      let entry := (v <- getstr out "vrf" ;;
                    e <- py_getitem v vrf ;;
                    ps <- getstr e "peers" ;;
                    p <- py_getitem ps peer ;;
                    l <- getstr p "label_space_id" ;;
                    py_getitem l index) in
      e <- entry ;;
      state <- py_get e "state" PNone ;;
      c <- and_then (e <- entry ;; py_in "ldp_discovery_sources" e)
                    (e <- entry ;;
                     s <- getstr e "ldp_discovery_sources" ;;
                     i <- py_get s "interface" PNone ;;
                     py_in interface i) ;;
      if c : bool then ret (Some state)
      else peer_state_indexes out vrf peer interface rest
  end.

Fixpoint peer_state_peers (out vrf : pyval) (interface : string)
    (peers : list pyval) : result (option pyval) :=
  match peers with
  | [] => Ok None
  | peer :: rest =>
      v <- getstr out "vrf" ;;
      e <- py_getitem v vrf ;;
      ps <- getstr e "peers" ;;
      p <- py_getitem ps peer ;;
      l <- py_get p "label_space_id" (PDict []) ;;
      indexes <- py_iter l ;;
      r <- peer_state_indexes out vrf peer interface indexes ;;
      match r with
      | Some s => ret (Some s)
      | None => peer_state_peers out vrf interface rest
      end
  end.

Fixpoint peer_state_vrfs (out : pyval) (interface : string)
    (vrfs : list pyval) : result (option pyval) :=
  match vrfs with
  | [] => Ok None
  | vrf :: rest =>
      v <- getstr out "vrf" ;;
      e <- py_getitem v vrf ;;
      ps <- py_get e "peers" (PDict []) ;;
      peers <- py_iter ps ;;
      r <- peer_state_peers out vrf interface peers ;;
      match r with
      | Some s => ret (Some s)
      | None => peer_state_vrfs out interface rest
      end
  end.

(** [get_mpls_ldp_peer_state(device, interface)] *)
Definition get_mpls_ldp_peer_state (device : pyval) (interface : string) : prog pyval :=
  try_event (Parse device "show mpls ldp neighbor") SchemaEmptyParserError
    (ret PNone)
    (fun out =>
       lift (c <- and_then (Ok (truthy out)) (py_in "vrf" out) ;;
             if c : bool then
               v <- getstr out "vrf" ;;
               vrfs <- py_iter v ;;
               r <- peer_state_vrfs out interface vrfs ;;
               match r with
               | Some s => ret s
               | None => ret PNone
               end
             else ret PNone)).

End Getters.
End Mpls.

(* ===================================================================== *)
(** ** The getters as one family *)
(* ===================================================================== *)

(** A call of a getter with its arguments. *)
Inductive getter : Type :=
| Get_neighbor_interface_and_device (device : pyval) (interface_alias : string)
| Get_interface_mtu_size (device : pyval) (interface : string)
| Get_interface_mtu_config_range (device : pyval) (interface : string)
| Get_interface_mac_address (device : pyval) (interface : string)
| Get_interface_without_service_policy (device : pyval) (interface_type : string)
    (virtual_interface : bool)
| Get_interface_qlimit_bytes (device : pyval) (interface : string)
| Get_interface_ip_address (device : pyval) (interface : string)
| Get_interface_loopback_ip_address (device : pyval) (num : Z)
| Get_unused_loopback_interface (device : pyval)
| Get_interface_with_mask (device : pyval) (netmask address_family : string)
| Get_interface_with_up_state (device : pyval) (interface_type : string)
    (virtual_interface : option bool)
| Get_interface_carrier_delay (device : pyval) (interface delay_type : string)
| Get_interface_ip_and_mask (device : pyval) (interface : string) (prefix : bool)
| Get_interface_interfaces (device : pyval) (link_name : option string) (opposite : bool)
    (num : Z)
| Get_interface_interfaces_under_vrf (device : pyval) (vrf : string)
| Get_interface_running_config (device : pyval) (interface : string)
| Get_interface_packet_counter (device : pyval) (interface counter_field : string)
    (output : pyval)
| Get_neighboring_device_interface (device testbed : pyval) (interface : string)
| Get_interface_connected_adjacent_router_interfaces (device : pyval) (link_name : string)
    (num : Z)
| Get_bundled_interface (device : pyval) (port_channel : string)
    (exclude_interface : option string)
| Get_interface_address_mask_running_config (device : pyval) (interface : string)
| Get_interface_packet_output_rate (device : pyval) (interface : string) (seconds : Z)
| Get_interface_switchport_access_vlan (device : pyval) (interface : string)
| Get_interface_netmask (ip_address : string)
| Get_interface_port_channel_members (device : pyval) (interface : string)
| Get_interface_interfaces_ldp_enabled (device : pyval) (vrf : string)
| Get_mpls_interface_ldp_configured (device : pyval)
| Get_mpls_ldp_session_count (device : pyval)
| Get_mpls_ldp_peer_state (device : pyval) (interface : string).

(** The body that a call runs. *)
Definition call (X : externals) (g : getter) : prog pyval :=
  match g with
  | Get_neighbor_interface_and_device d a => Interface.get_neighbor_interface_and_device d a
  | Get_interface_mtu_size d i => Interface.get_interface_mtu_size d i
  | Get_interface_mtu_config_range d i => Interface.get_interface_mtu_config_range X d i
  | Get_interface_mac_address d i => Interface.get_interface_mac_address d i
  | Get_interface_without_service_policy d t v =>
      Interface.get_interface_without_service_policy X d t v
  | Get_interface_qlimit_bytes d i => Interface.get_interface_qlimit_bytes X d i
  | Get_interface_ip_address d i => Interface.get_interface_ip_address d i
  | Get_interface_loopback_ip_address d n => Interface.get_interface_loopback_ip_address d n
  | Get_unused_loopback_interface d => Interface.get_unused_loopback_interface X d
  | Get_interface_with_mask d m af => Interface.get_interface_with_mask d m af
  | Get_interface_with_up_state d t v => Interface.get_interface_with_up_state d t v
  | Get_interface_carrier_delay d i t => Interface.get_interface_carrier_delay d i t
  | Get_interface_ip_and_mask d i p => Interface.get_interface_ip_and_mask X d i p
  | Get_interface_interfaces d l o n => Interface.get_interface_interfaces d l o n
  | Get_interface_interfaces_under_vrf d v => Interface.get_interface_interfaces_under_vrf d v
  | Get_interface_running_config d i => Interface.get_interface_running_config X d i
  | Get_interface_packet_counter d i f o => Interface.get_interface_packet_counter d i f o
  | Get_neighboring_device_interface d t i => Interface.get_neighboring_device_interface d t i
  | Get_interface_connected_adjacent_router_interfaces d l n =>
      Interface.get_interface_connected_adjacent_router_interfaces d l n
  | Get_bundled_interface d p e => Interface.get_bundled_interface X d p e
  | Get_interface_address_mask_running_config d i =>
      Interface.get_interface_address_mask_running_config X d i
  | Get_interface_packet_output_rate d i s => Interface.get_interface_packet_output_rate X d i s
  | Get_interface_switchport_access_vlan d i => Interface.get_interface_switchport_access_vlan d i
  | Get_interface_netmask a => lift (Interface.get_interface_netmask a)
  | Get_interface_port_channel_members d i => Interface.get_interface_port_channel_members d i
  | Get_interface_interfaces_ldp_enabled d v => Mpls.get_interface_interfaces_ldp_enabled X d v
  | Get_mpls_interface_ldp_configured d => Mpls.get_mpls_interface_ldp_configured X d
  | Get_mpls_ldp_session_count d => Mpls.get_mpls_ldp_session_count d
  | Get_mpls_ldp_peer_state d i => Mpls.get_mpls_ldp_peer_state d i
  end.

(** The calls to the parsing layer. *)
Definition is_parse (ev : event) : bool :=
  match ev with
  | Parse _ _ | ParseOutput _ _ _ => true
  | _ => false
  end.

(** What reaches the device, and the waits between: [execute], [parse]
    of a command (which runs it), and [sleep].  Parsing a text that is
    already at hand and logging are not among them. *)
Definition is_device_action (ev : event) : bool :=
  match ev with
  | Execute _ _ | Parse _ _ | Sleep _ => true
  | _ => false
  end.

Definition device_actions {A S : Type} (o : outcome A S) : list event :=
  filter is_device_action (events o).

(* ===================================================================== *)
(** ** A sample world for the examples *)
(* ===================================================================== *)

(** The float nearest to a small integer. *)
Definition float_of_Z (z : Z) : float :=
  if z <? 0 then PrimFloat.opp (PrimFloat.of_uint63 (Uint63.of_Z (- z)))
  else PrimFloat.of_uint63 (Uint63.of_Z z).

(** One implementation of the imported functions, enough for the
    examples: interface names are already in long form, the lines of a
    text hold no surrounding blanks, regular expressions match nothing,
    the quotient of two integers is the float quotient, and the floats
    that are rounded have at most two decimals already. *)
Definition sample_externals : externals :=
  {| convert_intf_name := fun s => s;
     get_config_dict := fun _ => Ok (PDict []);
     int_to_mask := fun v => Ok v;
     get_delta_time_from_outputs := fun _ _ => Ok (PInt 10);
     find := fun _ _ => Ok (PList []);
     group_keys := fun _ _ => Ok (PList []);
     re_search := fun _ _ => None;
     re_match := fun _ _ => None;
     str_capitalize := fun s => s;
     str_strip := fun s => s;
     str_splitlines := fun s => [s];
     py_int := fun v => match v with
                        | PStr s => if all_digits s && negb (String.eqb s "")
                                    then Ok (PInt (decimal_value 0 s))
                                    else Err ValueError
                        | _ => Err TypeError
                        end;
     num_sub := fun _ _ => Err TypeError;
     truediv := fun a b =>
                  match as_int a, as_int b with
                  | Some x, Some y =>
                      if y =? 0 then Err ZeroDivisionError
                      else Ok (PFloat (PrimFloat.div (float_of_Z x) (float_of_Z y)))
                  | _, _ => Err TypeError
                  end;
     round2 := fun v => match v with
                        | PFloat f => Ok (PFloat f)
                        | _ => Err TypeError
                        end |}.

(** The device of the examples. *)
Definition dev : pyval := PObj 1.

(** A device on which no command produces data. *)
Definition empty_device : handler unit :=
  stateless (fun ev => if is_parse ev then Err SchemaEmptyParserError else Ok PNone).

(** A device that rejects every command. *)
Definition rejecting_device : handler unit :=
  stateless (fun ev => match ev with
                       | Execute _ _ => Err SubCommandFailure
                       | _ => Ok PNone
                       end).

(** The parsed output of "show ip interface brief | include Loopback" on
    a device with two loopbacks and one other interface. *)
Definition brief_output : pyval :=
  PDict [(KStr "interface",
          PDict [(KStr "Loopback1", PDict [(KStr "ip_address", PStr "10.0.0.2")]);
                 (KStr "GigabitEthernet1", PDict [(KStr "ip_address", PStr "192.168.0.1")]);
                 (KStr "Loopback0", PDict [(KStr "ip_address", PStr "10.0.0.1")])])].

Definition brief_device : handler unit :=
  stateless (fun ev => match ev with
                       | Parse _ _ => Ok brief_output
                       | _ => Ok PNone
                       end).

(** The parsed output of "show interfaces Gi1" with a packet counter. *)
Definition counters_output (out_pkts : Z) : pyval :=
  PDict [(KStr "Gi1", PDict [(KStr "counters", PDict [(KStr "out_pkts", PInt out_pkts)])])].

(** Two samples of "show interfaces Gi1", ten seconds apart: the raw
    texts, the answers to the log and the sleep, the parsed texts and
    the answer to the closing log. *)
Definition two_samples (before after : Z) : list (result pyval) :=
  [Ok (PStr "sample 1"); Ok PNone; Ok PNone; Ok (PStr "sample 2");
   Ok (counters_output before); Ok (counters_output after); Ok PNone].

(* ===================================================================== *)
(** ** Further notions: commands, unexpected errors, sample outputs *)
(* ===================================================================== *)

(** The calls whose exception the getter sees; the answers to logging
    and sleeping are not looked at. *)
Definition fallible (ev : event) : bool :=
  match ev with
  | LogInfo _ _ | Sleep _ => false
  | _ => true
  end.


(** A command that the getter itself runs on the device. *)
Definition is_command (ev : event) : bool :=
  match ev with
  | Execute _ _ | Parse _ _ => true
  | _ => false
  end.

Definition is_sleep (ev : event) : bool :=
  match ev with
  | Sleep _ => true
  | _ => false
  end.

(** [within n p]: on every path [p] runs at most [n] commands and does
    not sleep. *)
Fixpoint within {A : Type} (n : nat) (p : prog A) : Prop :=
  match p with
  | Ret _ | Raise _ => True
  | Vis ev k =>
      is_sleep ev = false /\
      if is_command ev
      then match n with
           | O => False
           | Datatypes.S m => forall r, within m (k r)
           end
      else forall r, within n (k r)
  end.

(** [get_interface_packet_output_rate] is the one getter that samples
    the device twice. *)
Definition samples_twice (g : getter) : bool :=
  match g with
  | Get_interface_packet_output_rate _ _ _ => true
  | _ => false
  end.

(** The order [sorted] puts keys of one kind in. *)
Definition key_le (a b : key) : Prop := key_leb a b = true.

(** [len(output_ldp["vrf"][vrf]["peers"].keys())] *)
Definition peers_of (output_ldp vrf : pyval) : result nat :=
  v <- getstr output_ldp "vrf" ;;
  e <- py_getitem v vrf ;;
  peers <- getstr e "peers" ;;
  keys <- dict_keys peers ;;
  ret (List.length keys).

(** The pattern [r1] of [get_interface_address_mask_running_config]. *)
Definition address_mask_pattern : string :=
  "ip\s+address\s+(?P<address>\S+)\s+(?P<mask>\S+)".

(** A device whose every command is parsed to [out]. *)
Definition answering (out : pyval) : handler unit :=
  stateless (fun ev => if is_parse ev then Ok out else Ok PNone).


(** A device whose running configuration of the interface is empty. *)
Definition silent_device : handler unit :=
  stateless (fun ev => match ev with
                       | Execute _ _ => Ok (PStr "")
                       | _ => Ok PNone
                       end).

(** A world in which every attribute and helper answers with an empty
    dictionary. *)
Definition blank_world : handler unit := stateless (fun _ => Ok (PDict [])).

(** "show etherchannel summary": one member bundled, one not. *)
Definition channel_output : pyval :=
  PDict [(KStr "interfaces",
          PDict [(KStr "Port-channel1",
                  PDict [(KStr "members",
                          PDict [(KStr "GigabitEthernet1",
                                  PDict [(KStr "bundled", PBool false)]);
                                 (KStr "GigabitEthernet2",
                                  PDict [(KStr "bundled", PBool true)])])])])].

(** "show ip interface": a physical interface down, a subinterface up. *)
Definition status_output : pyval :=
  PDict [(KStr "GigabitEthernet1", PDict [(KStr "oper_status", PStr "down")]);
         (KStr "GigabitEthernet2.1", PDict [(KStr "oper_status", PStr "up")])].

(** "show ip interface brief GigabitEthernet1". *)
Definition address_output : pyval :=
  PDict [(KStr "interface",
          PDict [(KStr "GigabitEthernet1", PDict [(KStr "ip_address", PStr "10.0.0.1")])])].

(** "show mpls ldp neighbor": two peers in the default VRF. *)
Definition neighbor_output : pyval :=
  PDict [(KStr "vrf",
          PDict [(KStr "default",
                  PDict [(KStr "peers",
                          PDict [(KStr "10.1.1.1", PDict []);
                                 (KStr "10.2.2.2", PDict [])])])])].

(** "show mpls interfaces detail": one interface in the default VRF. *)
Definition ldp_output : pyval :=
  PDict [(KStr "vrf",
          PDict [(KStr "default",
                  PDict [(KStr "interfaces",
                          PDict [(KStr "GigabitEthernet1", PDict [])])])])].

(** "show interfaces": one interface with a /30 address. *)
Definition mask_output : pyval :=
  PDict [(KStr "GigabitEthernet1",
          PDict [(KStr "ipv4",
                  PDict [(KStr "10.0.0.1/30",
                          PDict [(KStr "prefix_length", PStr "30");
                                 (KStr "ip", PStr "10.0.0.1")])])])].

(** A testbed with one link whose only interface belongs to another
    device: the answers to the log, [find_links], [pop],
    [find_interfaces], [it.device], [it.name], [it.device] and the
    closing log. *)
Definition link_script : list (result pyval) :=
  [Ok PNone; Ok (PObj 10); Ok (PObj 11); Ok (PList [PObj 20]);
   Ok (PObj 2); Ok (PStr "GigabitEthernet1"); Ok (PObj 2); Ok PNone].

(** The pattern [p] of [get_mpls_interface_ldp_configured]. *)
Definition interface_pattern : string := "^interface +(?P<name>[\S\s]+)$".

(** ["mpls label protocol ldp" in data_dict] holds. *)
Definition ldp_configured (it : pyval * pyval) : bool :=
  match py_in "mpls label protocol ldp" (snd it) with
  | Ok true => true
  | _ => false
  end.

(** [out["vrf"][vrf]["peers"][peer]["label_space_id"][index]] *)
Definition label_space (out vrf peer index : pyval) : result pyval :=
  v <- getstr out "vrf" ;;
  e <- py_getitem v vrf ;;
  ps <- getstr e "peers" ;;
  p <- py_getitem ps peer ;;
  l <- getstr p "label_space_id" ;;
  py_getitem l index.

(** The label space was discovered through [interface]. *)
Definition discovered_on (interface : string) (entry : pyval) : Prop :=
  exists sources ifaces,
    getstr entry "ldp_discovery_sources" = Ok sources /\
    py_get sources "interface" PNone = Ok ifaces /\
    py_in interface ifaces = Ok true.

(** The interface has no "ipv4" entry. *)
Definition without_ipv4 (it : pyval * pyval) : Prop :=
  exists d, snd it = PDict d /\ lookup (KStr "ipv4") d = None.

(** Sections of the running configuration: one with LDP, one without. *)
Definition section_output : pyval :=
  PDict [(KStr "interface GigabitEthernet1",
          PDict [(KStr "mpls label protocol ldp", PDict [])]);
         (KStr "interface GigabitEthernet2", PDict [])].

(** "show mpls ldp neighbor": one peer discovered on GigabitEthernet1. *)
Definition peer_output : pyval :=
  PDict [(KStr "vrf",
          PDict [(KStr "default",
                  PDict [(KStr "peers",
                          PDict [(KStr "10.1.1.1",
                                  PDict [(KStr "label_space_id",
                                          PDict [(KInt 0,
                                                  PDict [(KStr "state", PStr "oper");
                                                         (KStr "ldp_discovery_sources",
                                                          PDict [(KStr "interface",
                                                                  PDict [(KStr "GigabitEthernet1",
                                                                          PDict [])])])])])])])])])].

(** [blind p]: [p] does not look at what logging and sleeping answer. *)
Fixpoint blind {A : Type} (p : prog A) : Prop :=
  match p with
  | Ret _ | Raise _ => True
  | Vis ev k =>
      (fallible ev = false -> forall r1 r2, k r1 = k r2) /\
      forall r, blind (k r)
  end.




(** The pattern [p] of [get_interface_without_service_policy]. *)
Definition service_policy_pattern (virtual_interface : bool) : string :=
  if negb virtual_interface
  then "interface +(?P<intf>(?!\S+\.\S*)\S+)"
  else "interface +(?P<intf>\S+)".

(** [re.search] as it behaves on section headers of the form
    "interface <name>", with one blank and a name free of blanks: the
    group "intf" is the name, and the pattern that refuses
    subinterfaces finds nothing when the name holds a dot. *)
Definition header_search (pattern text : string) : option re_match_obj :=
  if String.prefix "interface " text then
    let name := str_from 10 text in
    if String.eqb pattern (service_policy_pattern false) && str_contains "." name
    then None
    else Some (mkMatch text [(KStr "intf", PStr name)])
  else None.

(** The sample implementation with that [re.search]. *)
Definition header_externals : externals :=
  {| convert_intf_name := convert_intf_name sample_externals;
     get_config_dict := get_config_dict sample_externals;
     int_to_mask := int_to_mask sample_externals;
     get_delta_time_from_outputs := get_delta_time_from_outputs sample_externals;
     find := find sample_externals;
     group_keys := group_keys sample_externals;
     re_search := header_search;
     re_match := re_match sample_externals;
     str_capitalize := str_capitalize sample_externals;
     str_strip := str_strip sample_externals;
     str_splitlines := str_splitlines sample_externals;
     py_int := py_int sample_externals;
     num_sub := num_sub sample_externals;
     truediv := truediv sample_externals;
     round2 := round2 sample_externals |}.

(** Sections of the running configuration: a physical interface with a
    service policy, a subinterface and a physical interface without. *)
Definition policy_output : pyval :=
  PDict [(KStr "interface GigabitEthernet1",
          PDict [(KStr "service-policy output shape", PDict [])]);
         (KStr "interface GigabitEthernet2.1",
          PDict [(KStr "encapsulation dot1Q 1", PDict [])]);
         (KStr "interface GigabitEthernet3",
          PDict [(KStr "ip address 10.0.0.3 255.255.255.0", PDict [])])].

(* ===================================================================== *)
(** ** Runs, transcripts and what they determine *)
(* ===================================================================== *)

(** [produces p tr res]: some world makes [p] issue the events of [tr],
    receive the answers of [tr], and end with [res]. *)
Fixpoint produces {A : Type} (p : prog A) (tr : list (event * result pyval))
    (res : result A) : Prop :=
  match p with
  | Ret a => tr = [] /\ res = Ok a
  | Raise e => tr = [] /\ res = Err e
  | Vis ev k => exists r tr', tr = (ev, r) :: tr' /\ produces (k r) tr' res
  end.

Lemma run_produces {A S : Type} (p : prog A) (h : handler S) (s : S) :
  produces p (transcript (run p h s)) (returned (run p h s)).
Proof.
  revert s. induction p as [a | e | ev k IH]; intros s; simpl.
  - split; reflexivity.
  - split; reflexivity.
  - destruct (h ev s) as [r s']. simpl.
    exists r, (transcript (run (k r) h s')). split; [reflexivity | apply IH].
Qed.

(** Every transcript is the run of a scripted world. *)
Lemma produces_scripted {A : Type} (p : prog A) tr res :
  produces p tr res ->
  returned (run p scripted (map snd tr)) = res /\
  transcript (run p scripted (map snd tr)) = tr.
Proof.
  revert tr. induction p as [a | e | ev k IH]; intros tr; simpl.
  - intros [-> ->]. split; reflexivity.
  - intros [-> ->]. split; reflexivity.
  - intros (r & tr' & -> & H). simpl.
    destruct (IH r tr' H) as [H1 H2]. rewrite H1, H2. split; reflexivity.
Qed.

(** The answers a program receives determine the events it issues and
    what it returns. *)
Lemma produces_deterministic {A : Type} (p : prog A) tr1 tr2 res1 res2 :
  produces p tr1 res1 -> produces p tr2 res2 ->
  map snd tr1 = map snd tr2 ->
  tr1 = tr2 /\ res1 = res2.
Proof.
  revert tr1 tr2. induction p as [a | e | ev k IH]; intros tr1 tr2; simpl.
  - intros [-> ->] [-> ->] _. split; reflexivity.
  - intros [-> ->] [-> ->] _. split; reflexivity.
  - intros (r1 & t1 & -> & H1) (r2 & t2 & -> & H2) E. simpl in E.
    injection E as Er Et. subst r2.
    destruct (IH r1 t1 t2 H1 H2 Et) as [-> ->]. split; reflexivity.
Qed.

(** [reacts trig out p]: wherever [p] receives an answer that [trig]
    selects, it stops at once with [out]. *)
Definition done {A : Type} (out : result A) : prog A :=
  match out with Ok a => Ret a | Err e => Raise e end.

Fixpoint reacts {A : Type} (trig : event -> result pyval -> bool) (out : result A)
    (p : prog A) : Prop :=
  match p with
  | Ret _ | Raise _ => True
  | Vis ev k => forall r, (trig ev r = true -> k r = done out) /\ reacts trig out (k r)
  end.

Lemma reacts_produces {A : Type} trig (out : result A) (p : prog A) tr res :
  reacts trig out p -> produces p tr res ->
  forall ev r, In (ev, r) tr -> trig ev r = true -> res = out.
Proof.
  revert tr. induction p as [a | e | ev k IH]; intros tr; simpl.
  - intros _ [-> _] ev r [].
  - intros _ [-> _] ev r [].
  - intros Hre (r0 & tr' & -> & Hp) ev' r' [Hin | Hin] Ht.
    + injection Hin as -> ->.
      destruct (Hre r') as [Hk _]. rewrite (Hk Ht) in Hp.
      destruct out; simpl in Hp; destruct Hp as [_ ->]; reflexivity.
    + destruct (Hre r0) as [_ Hr]. exact (IH r0 tr' Hr Hp ev' r' Hin Ht).
Qed.

Lemma reacts_run {A S : Type} trig (out : result A) (p : prog A) (h : handler S) (s : S) :
  reacts trig out p ->
  forall ev r, In (ev, r) (transcript (run p h s)) -> trig ev r = true ->
  returned (run p h s) = out.
Proof.
  intros Hre ev r. exact (reacts_produces trig out p _ _ Hre (run_produces p h s) ev r).
Qed.

(** The two answers the error-handling claims are about. *)
Definition parser_empty (ev : event) (r : result pyval) : bool :=
  is_parse ev &&
  match r with Err SchemaEmptyParserError => true | _ => false end.

Definition command_rejected (ev : event) (r : result pyval) : bool :=
  match ev, r with
  | Execute _ _, Err SubCommandFailure => true
  | _, _ => false
  end.


(** [avoids trig p]: no answer that [p] can receive is selected by [trig]. *)
Fixpoint avoids {A : Type} (trig : event -> result pyval -> bool) (p : prog A) : Prop :=
  match p with
  | Ret _ | Raise _ => True
  | Vis ev k => forall r, trig ev r = false /\ avoids trig (k r)
  end.

Lemma avoids_reacts {A : Type} trig (out : result A) (p : prog A) :
  avoids trig p -> reacts trig out p.
Proof.
  induction p as [a | e | ev k IH]; simpl; auto.
  intros H r. destruct (H r) as [H1 H2].
  split; [rewrite H1; discriminate | auto].
Qed.

Lemma avoids_bind {A B : Type} trig (c : prog A) (f : A -> prog B) :
  avoids trig c -> (forall a, avoids trig (f a)) -> avoids trig (prog_bind c f).
Proof.
  induction c as [a | e | ev k IH]; simpl; auto.
  intros H Hf r. destruct (H r) as [H1 H2]. split; auto.
Qed.

(** *** Walking a program *)

(** The value a program is waiting on: the scrutinee at the head of its
    chain of binds. *)
Ltac head_scrut p :=
  lazymatch p with
  | prog_bind ?c _ => head_scrut c
  | prog_catch ?c _ => head_scrut c
  | lift ?x => constr:(x)
  | match ?x with _ => _ end => constr:(x)
  end.

(** Proves [reacts] and [avoids] goals of loop-free programs by following
    every answer and every outcome of the pure steps. *)
Ltac walk :=
  repeat (simpl;
          cbn [parser_empty command_rejected is_parse andb lift prog_bind prog_catch];
    match goal with
    | |- True => exact I
    | |- _ /\ _ => split
    | |- _ = false => reflexivity
    | |- false = true -> _ => discriminate
    | |- true = true -> _ => intros _; reflexivity
    | |- match ?e with _ => _ end = true -> _ => destruct e
    | |- forall r : result pyval, _ => intros [?|?]
    | |- reacts _ _ ?p => let x := head_scrut p in destruct x
    | |- avoids _ ?p => let x := head_scrut p in destruct x
    end).

(** Splits a [produces] hypothesis of a loop-free program into its paths. *)
Ltac unroll H :=
  repeat (simpl in H; cbn [lift prog_bind prog_catch] in H;
    lazymatch type of H with
    | exists _, _ => let r := fresh "r" in
                     let tr := fresh "tr" in
                     destruct H as (r & tr & -> & H)
    | _ = [] /\ _ = _ => destruct H as [-> ->]
    | produces ?p _ _ => let x := head_scrut p in
                         let E := fresh "E" in
                         destruct x eqn:E
    end).

Ltac unfold_getter :=
  lazymatch goal with
  | |- reacts _ _ (?f _ _ _ _ _) => unfold f
  | |- reacts _ _ (?f _ _ _ _) => unfold f
  | |- reacts _ _ (?f _ _ _) => unfold f
  | |- reacts _ _ (?f _ _) => unfold f
  | |- reacts _ _ (?f _) => unfold f
  end.

Lemma neighboring_loop_avoids trig device its td :
  (forall o a r, trig (GetAttr o a) r = false) ->
  avoids trig (Interface.neighboring_loop device its td).
Proof.
  intros Ht. revert td.
  induction its as [| it rest IH]; intros td; simpl; [exact I |].
  intros r1. split; [apply Ht |]. destruct r1 as [d | e]; simpl; [| exact I].
  intros r2. split; [apply Ht |]. destruct r2 as [n | e]; simpl; [| exact I].
  intros r3. split; [apply Ht |]. destruct r3 as [d' | e]; simpl; [| exact I].
  apply IH.
Qed.

(* ===================================================================== *)
(** ** Empty parser output *)
(* ===================================================================== *)

(** What each getter returns when the parser reports that the command
    produced no data. *)
Definition on_empty (g : getter) : pyval :=
  match g with
  | Get_interface_loopback_ip_address _ _
  | Get_interface_interfaces_under_vrf _ _
  | Get_interface_interfaces_ldp_enabled _ _ => PList []
  | Get_interface_with_mask _ _ _
  | Get_interface_ip_and_mask _ _ _ => PTuple [PNone; PNone]
  | Get_unused_loopback_interface _ => PStr "Loopback0"
  | Get_mpls_ldp_session_count _ => PInt 0
  | _ => PNone
  end.

(** [None], a tuple of [None]s or an empty collection. *)
Definition none_or_empty (v : pyval) : bool :=
  match v with
  | PNone | PList [] | PDict [] | PTuple [] => true
  | PTuple l => forallb (fun x => match x with PNone => true | _ => false end) l
  | _ => false
  end.

(** [get_bundled_interface] is the one getter that calls [parse] outside
    a [try]. *)
Definition parses_unguarded (g : getter) : bool :=
  match g with
  | Get_bundled_interface _ _ _ => true
  | _ => false
  end.

Lemma getters_react_to_parser_empty (X : externals) (g : getter) :
  parses_unguarded g = false ->
  reacts parser_empty (Ok (on_empty g)) (call X g).
Proof.
  destruct g; intros Hg; try discriminate Hg; clear Hg; unfold call;
  lazymatch goal with
  | |- reacts _ _ (Interface.get_neighboring_device_interface _ _ _) =>
      unfold Interface.get_neighboring_device_interface; walk;
      cbn [lift prog_bind]; apply avoids_reacts;
      (apply avoids_bind; [apply neighboring_loop_avoids; reflexivity |]);
      intros td; walk
  | |- reacts _ _ (Interface.get_interface_packet_output_rate _ _ _ _) =>
      unfold Interface.get_interface_packet_output_rate,
             Interface.get_interface_packet_counter; walk
  | |- _ => unfold_getter; walk
  end.
Qed.

(* ===================================================================== *)
(** ** Commands the device rejects *)
(* ===================================================================== *)

(** What each getter does when [execute] raises [SubCommandFailure]. *)
Definition on_rejected (g : getter) : result pyval :=
  match g with
  | Get_interface_running_config _ _ => Ok (PDict [])
  | Get_interface_address_mask_running_config _ _ => Ok (PTuple [PNone; PNone])
  | _ => Err SubCommandFailure
  end.

Lemma getters_react_to_rejection (X : externals) (g : getter) :
  reacts command_rejected (on_rejected g) (call X g).
Proof.
  destruct g; unfold call;
  lazymatch goal with
  | |- reacts _ _ (Interface.get_neighboring_device_interface _ _ _) =>
      unfold Interface.get_neighboring_device_interface; walk;
      cbn [lift prog_bind]; apply avoids_reacts;
      (apply avoids_bind; [apply neighboring_loop_avoids; reflexivity |]);
      intros td; walk
  | |- reacts _ _ (Interface.get_interface_packet_output_rate _ _ _ _) =>
      unfold Interface.get_interface_packet_output_rate,
             Interface.get_interface_packet_counter; walk
  | |- _ => unfold_getter; walk
  end.
Qed.

(* ===================================================================== *)
(** ** The paths of [get_interface_packet_output_rate] *)
(* ===================================================================== *)

Section PacketOutputRate.

Variable X : externals.
Variables (device : pyval) (interface : string) (seconds : Z).

Let cmd : string := "show interfaces " ++ interface.






End PacketOutputRate.

(* ===================================================================== *)
(** ** The stated properties *)
(* ===================================================================== *)

(** C1, as the code has it: every getter other than
    [get_bundled_interface] catches [SchemaEmptyParserError] where it
    calls the parser.  In any run in which a call to [parse] is answered
    by that error, the getter returns its fixed default [on_empty g]:
    [None], [(None, None)] or the empty list, and [0] for
    [get_mpls_ldp_session_count], ["Loopback0"] for
    [get_unused_loopback_interface]. *)
Theorem parser_empty_is_caught (X : externals) (g : getter) (S : Type)
    (h : handler S) (s : S) (ev : event) :
  parses_unguarded g = false ->
  is_parse ev = true ->
  In (ev, Err SchemaEmptyParserError) (transcript (run (call X g) h s)) ->
  returned (run (call X g) h s) = Ok (on_empty g).
Proof.
  intros Hg Hev Hin.
  apply (reacts_run parser_empty (Ok (on_empty g)) (call X g) h s
           (getters_react_to_parser_empty X g Hg) ev (Err SchemaEmptyParserError) Hin).
  unfold parser_empty. rewrite Hev. reflexivity.
Qed.

Lemma parser_empty_is_caught_witness :
  parses_unguarded (Get_interface_mtu_size dev "Gi1") = false /\
  is_parse (Parse dev "show interfaces Gi1") = true /\
  returned (run (call sample_externals (Get_interface_mtu_size dev "Gi1")) empty_device tt)
    = Ok PNone.
Proof.
  split; [reflexivity |]. split; [reflexivity |].
  apply (parser_empty_is_caught sample_externals (Get_interface_mtu_size dev "Gi1")
           unit empty_device tt (Parse dev "show interfaces Gi1")).
  - reflexivity.
  - reflexivity.
  - simpl. left. reflexivity.
Defined.

(** C1 as stated fails: on a device whose parser finds no data,
    [get_unused_loopback_interface] returns the name "Loopback0", which
    is neither [None] nor an empty collection, and
    [get_bundled_interface] lets the error through. *)
Lemma parser_empty_not_always_none :
  let o := run (call sample_externals (Get_unused_loopback_interface dev)) empty_device tt in
  let o' := run (call sample_externals (Get_bundled_interface dev "port-channel1" None))
                empty_device tt in
  transcript o = [(Parse dev "show ip interface brief | include Loopback",
                   Err SchemaEmptyParserError)] /\
  returned o = Ok (PStr "Loopback0") /\
  none_or_empty (PStr "Loopback0") = false /\
  transcript o' = [(Parse dev "show etherchannel summary", Err SchemaEmptyParserError)] /\
  returned o' = Err SchemaEmptyParserError.
Proof. repeat split; reflexivity. Qed.



(** The run of the witness: two samples around the wait, and the rate
    (1500 - 1000) / 10. *)
Example packet_output_rate_run :
  let o := run (Interface.get_interface_packet_output_rate sample_externals dev "Gi1" 10)
               scripted (two_samples 1000 1500) in
  device_actions o
    = [Execute dev "show interfaces Gi1"; Sleep 10; Execute dev "show interfaces Gi1"] /\
  returned o = Ok (PFloat 50%float).
Proof. split; reflexivity. Qed.


(** C6: when [execute] raises [SubCommandFailure],
    [get_interface_running_config] returns [{}] and
    [get_interface_address_mask_running_config] returns [(None, None)];
    every other getter that executes a command lets the error reach its
    caller. *)
Theorem subcommand_failure_handling (X : externals) (g : getter) (S : Type)
    (h : handler S) (s : S) (device : pyval) (cmd : string) :
  In (Execute device cmd, Err SubCommandFailure) (transcript (run (call X g) h s)) ->
  returned (run (call X g) h s)
    = match g with
      | Get_interface_running_config _ _ => Ok (PDict [])
      | Get_interface_address_mask_running_config _ _ => Ok (PTuple [PNone; PNone])
      | _ => Err SubCommandFailure
      end.
Proof.
  intros Hin.
  change (returned (run (call X g) h s) = on_rejected g).
  exact (reacts_run command_rejected (on_rejected g) (call X g) h s
           (getters_react_to_rejection X g)
           (Execute device cmd) (Err SubCommandFailure) Hin eq_refl).
Qed.

Lemma subcommand_failure_handling_witness :
  returned (run (call sample_externals (Get_interface_running_config dev "Gi1"))
                rejecting_device tt) = Ok (PDict []) /\
  returned (run (call sample_externals (Get_interface_address_mask_running_config dev "Gi1"))
                rejecting_device tt) = Ok (PTuple [PNone; PNone]) /\
  returned (run (call sample_externals (Get_interface_packet_output_rate dev "Gi1" 10))
                rejecting_device tt) = Err SubCommandFailure.
Proof.
  split; [| split].
  - apply (subcommand_failure_handling sample_externals
             (Get_interface_running_config dev "Gi1") unit rejecting_device tt
             dev "show running-config interface Gi1").
    simpl. left. reflexivity.
  - apply (subcommand_failure_handling sample_externals
             (Get_interface_address_mask_running_config dev "Gi1") unit rejecting_device tt
             dev "show running-config interface Gi1").
    simpl. left. reflexivity.
  - apply (subcommand_failure_handling sample_externals
             (Get_interface_packet_output_rate dev "Gi1" 10) unit rejecting_device tt
             dev "show interfaces Gi1").
    simpl. left. reflexivity.
Defined.








(** Not every program has the property: one that returns what the
    logger answered does not. *)
Remark logger_echo_not_blind : ~ blind (trigger (LogInfo "echo" [])).
Proof.
  simpl. intros [H _]. specialize (H eq_refl (Ok PNone) (Err KeyError)). discriminate H.
Qed.




(** C8 at [num = 0]: the loop compares the count with [num] only after
    it has counted an interface, so the comparison never holds and every
    loopback is returned, two pairs here where at most zero were asked
    for. *)
Theorem loopback_ip_address_num_zero :
  returned (run (Interface.get_interface_loopback_ip_address dev 0) brief_device tt)
    = Ok (PList [PTuple [PStr "Loopback0"; PStr "10.0.0.1"];
                 PTuple [PStr "Loopback1"; PStr "10.0.0.2"]]).
Proof. reflexivity. Qed.



(** C10: [get_interface_netmask] compares the address, as an integer,
    with 127.0.0.0, 191.255.0.0 and 223.255.255.0 by [<]: "/8" exactly
    below the first, "/16" from the first up to the second, "/24" from
    the second up to the third, [None] from the third on. *)
Theorem get_interface_netmask_classes (ip_address : string) (ip : Z) :
  IPv4Address ip_address = Ok ip ->
  IPv4Address "127.0.0.0" = Ok 2130706432 /\
  IPv4Address "191.255.0.0" = Ok 3221159936 /\
  IPv4Address "223.255.255.0" = Ok 3758096128 /\
  (Interface.get_interface_netmask ip_address = Ok (PStr "/8") <-> ip < 2130706432) /\
  (Interface.get_interface_netmask ip_address = Ok (PStr "/16")
     <-> 2130706432 <= ip < 3221159936) /\
  (Interface.get_interface_netmask ip_address = Ok (PStr "/24")
     <-> 3221159936 <= ip < 3758096128) /\
  (Interface.get_interface_netmask ip_address = Ok PNone <-> 3758096128 <= ip).
Proof.
  intros Hip.
  assert (Ha : IPv4Address "127.0.0.0" = Ok 2130706432) by reflexivity.
  assert (Hb : IPv4Address "191.255.0.0" = Ok 3221159936) by reflexivity.
  assert (Hc : IPv4Address "223.255.255.0" = Ok 3758096128) by reflexivity.
  split; [exact Ha |]. split; [exact Hb |]. split; [exact Hc |].
  unfold Interface.get_interface_netmask.
  rewrite Ha, Hb, Hc, Hip.
  cbn [bind ret Monad_result Interface.netmask_loop fst snd].
  destruct (Z.ltb_spec ip 2130706432);
    [| destruct (Z.ltb_spec ip 3221159936);
       [| destruct (Z.ltb_spec ip 3758096128)]].
  all: cbn [Interface.netmask_loop fst snd];
       repeat match goal with
              | |- _ /\ _ => split
              | |- _ <-> _ => split
              end;
       intros H'; first [reflexivity | discriminate H' | lia].
Qed.

Lemma get_interface_netmask_classes_witness :
  IPv4Address "127.0.0.0" = Ok 2130706432 /\
  Interface.get_interface_netmask "127.0.0.0" = Ok (PStr "/16") /\
  Interface.get_interface_netmask "224.0.0.1" = Ok PNone.
Proof.
  split; [reflexivity |]. split.
  - apply (proj2 (proj1 (proj2 (proj2 (proj2 (proj2
             (get_interface_netmask_classes "127.0.0.0" 2130706432 eq_refl))))))).
    split; [discriminate | reflexivity].
  - apply (proj2 (proj2 (proj2 (proj2 (proj2 (proj2
             (get_interface_netmask_classes "224.0.0.1" 3758096385 eq_refl))))))).
    discriminate.
Defined.

(* ===================================================================== *)
(** ** Further properties of the getters *)
(* ===================================================================== *)

#[local] Arguments String.append : simpl never.

Lemma run_lift {A S : Type} (r : result A) (h : handler S) (s : S) :
  returned (run (lift r) h s) = r.
Proof. destruct r; reflexivity. Qed.

(** A property of every transcript and outcome of [p] holds of its runs. *)
Lemma via_produces {A S : Type} (p : prog A) (h : handler S) (s : S)
    (P : list (event * result pyval) -> result A -> Prop) :
  (forall tr res, produces p tr res -> P tr res) ->
  P (transcript (run p h s)) (returned (run p h s)).
Proof. intros H. apply H. apply run_produces. Qed.

Lemma produces_bind {A B : Type} (c : prog A) (f : A -> prog B) tr res :
  produces (prog_bind c f) tr res ->
  (exists a tr1 tr2, produces c tr1 (Ok a) /\ produces (f a) tr2 res /\
                     tr = (tr1 ++ tr2)%list) \/
  (exists e, produces c tr (Err e) /\ res = Err e).
Proof.
  revert tr. induction c as [a | e | ev k IH]; intros tr; simpl.
  - intros H. left. exists a, [], tr. auto.
  - intros [-> ->]. right. exists e. auto.
  - intros (r & tr' & -> & H). destruct (IH r tr' H) as
      [(a & tr1 & tr2 & H1 & H2 & ->) | (e & H1 & ->)].
    + left. exists a, ((ev, r) :: tr1), tr2. split; [| auto]. exists r, tr1. auto.
    + right. exists e. split; [| reflexivity]. exists r, tr'. auto.
Qed.

(** The value a pure step is waiting on. *)
Ltac inner x :=
  lazymatch x with
  | match ?y with _ => _ end => inner y
  | _ => x
  end.

(** Follows a pure body to the outcome stated by [H]. *)
Ltac follow H :=
  repeat (simpl in H;
    lazymatch type of H with
    | match ?x with _ => _ end = _ =>
        let y := inner x in
        let E := fresh "E" in
        destruct y eqn:E; try discriminate H
    end).

(** Decides which entry of a transcript an answer belongs to. *)
Ltac locate Hin :=
  simpl in Hin;
  repeat (destruct Hin as [Hin | Hin]; [try discriminate Hin |]);
  try contradiction.

(* --------------------------------------------------------------------- *)
(** *** [sorted] sorts *)
(* --------------------------------------------------------------------- *)

Lemma ascii_compare_refl (a : ascii) : Ascii.compare a a = Eq.
Proof. unfold Ascii.compare. apply N.compare_refl. Qed.

Lemma ascii_compare_trans (a b c : ascii) (o : comparison) :
  Ascii.compare a b = o -> Ascii.compare b c = o -> Ascii.compare a c = o.
Proof.
  unfold Ascii.compare. destruct o; intros H1 H2.
  - apply N.compare_eq_iff in H1, H2. apply N.compare_eq_iff. congruence.
  - apply N.compare_lt_iff in H1. apply N.compare_lt_iff in H2.
    apply N.compare_lt_iff. eapply N.lt_trans; eassumption.
  - apply N.compare_gt_iff in H1. apply N.compare_gt_iff in H2.
    apply N.compare_gt_iff. eapply N.lt_trans; eassumption.
Qed.

Lemma string_compare_trans_le (a b c : string) :
  String.compare a b <> Gt -> String.compare b c <> Gt -> String.compare a c <> Gt.
Proof.
  revert b c. induction a as [| x a IH]; intros [| y b] [| z c]; simpl; try congruence.
  destruct (Ascii.compare x y) eqn:Exy; destruct (Ascii.compare y z) eqn:Eyz;
    try congruence.
  - apply Ascii.compare_eq_iff in Exy, Eyz. subst. rewrite ascii_compare_refl. apply IH.
  - apply Ascii.compare_eq_iff in Exy. subst. rewrite Eyz. congruence.
  - apply Ascii.compare_eq_iff in Eyz. subst. rewrite Exy. congruence.
  - rewrite (ascii_compare_trans x y z Lt Exy Eyz). congruence.
Qed.

Lemma string_leb_trans (a b c : string) :
  String.leb a b = true -> String.leb b c = true -> String.leb a c = true.
Proof.
  unfold String.leb. intros H1 H2.
  pose proof (string_compare_trans_le a b c) as H.
  destruct (String.compare a b); destruct (String.compare b c);
    destruct (String.compare a c); try reflexivity; try discriminate;
    exfalso; apply H; congruence.
Qed.

Lemma key_leb_trans a b c : key_le a b -> key_le b c -> key_le a c.
Proof.
  unfold key_le. destruct a, b, c; simpl; try discriminate.
  - apply string_leb_trans.
  - intros H1 H2. apply Z.leb_le in H1, H2. apply Z.leb_le. lia.
Qed.

Lemma key_leb_total a b : same_kind a b = true -> key_le a b \/ key_le b a.
Proof.
  unfold key_le. destruct a, b; simpl; try discriminate; intros _.
  - apply String.leb_total.
  - destruct (Z.leb_spec z z0); [left; reflexivity | right; apply Z.leb_le; lia].
Qed.

Lemma insert_by_in (x y : key) l : In y (insert_by key_leb x l) <-> y = x \/ In y l.
Proof.
  induction l as [| z l IH]; simpl.
  - intuition.
  - destruct (key_leb x z); simpl; rewrite ?IH; intuition.
Qed.

Lemma sort_by_in (y : key) l : In y (sort_by key_leb l) <-> In y l.
Proof.
  induction l as [| z l IH]; simpl; [reflexivity |].
  rewrite insert_by_in, IH. intuition.
Qed.

Lemma insert_by_sorted (x : key) l :
  Forall (fun y => same_kind x y = true) l ->
  StronglySorted key_le l -> StronglySorted key_le (insert_by key_leb x l).
Proof.
  induction l as [| z l IH]; intros Hk Hs; simpl.
  - constructor; constructor.
  - inversion Hk as [| ? ? Hxz Hk']; subst. inversion Hs as [| ? ? Hs' Hz]; subst.
    destruct (key_leb x z) eqn:E.
    + constructor; [exact Hs |]. constructor; [exact E |].
      eapply Forall_impl; [| exact Hz]. intros a Ha. eapply key_leb_trans; eauto.
    + constructor; [apply IH; assumption |].
      apply Forall_forall. intros y Hy. apply (proj1 (insert_by_in x y l)) in Hy. destruct Hy as [-> | Hy].
      * destruct (key_leb_total x z Hxz) as [H | H]; [unfold key_le in H; congruence | exact H].
      * rewrite Forall_forall in Hz. auto.
Qed.

Lemma same_kind_trans a b c : same_kind a b = true -> same_kind a c = true -> same_kind b c = true.
Proof. destruct a, b, c; simpl; congruence. Qed.

Lemma sort_by_sorted l :
  (forall a b, In a l -> In b l -> same_kind a b = true) ->
  StronglySorted key_le (sort_by key_leb l).
Proof.
  induction l as [| x l IH]; intros Hall; simpl; [constructor |].
  apply insert_by_sorted.
  - apply Forall_forall. intros y Hy. apply (proj1 (sort_by_in y l)) in Hy.
    apply Hall; simpl; auto.
  - apply IH. intros a b Ha Hb. apply Hall; simpl; auto.
Qed.

Lemma py_sorted_spec l l' :
  py_sorted l = Ok l' ->
  StronglySorted key_le l' /\ (forall k, In k l' <-> In k l).
Proof.
  unfold py_sorted. destruct l as [| k rest].
  - intros H. injection H as <-. split; [constructor | intros; reflexivity].
  - destruct (forallb (same_kind k) rest) eqn:E; [| discriminate].
    intros H. injection H as <-. split; [| intros y; exact (sort_by_in y (k :: rest))].
    apply (sort_by_sorted (k :: rest)). rewrite forallb_forall in E.
    intros a b Ha Hb. destruct Ha as [Ha | Ha]; destruct Hb as [Hb | Hb]; subst.
    + destruct b; reflexivity.
    + auto.
    + specialize (E _ Ha). destruct a, b; simpl in *; congruence.
    + eapply same_kind_trans; eauto.
Qed.

(* --------------------------------------------------------------------- *)
(** *** [get_interface_loopback_ip_address] *)
(* --------------------------------------------------------------------- *)

Lemma loopback_loop_spec out num keys :
  StronglySorted key_le keys ->
  forall count acc res,
  count < num ->
  Interface.loopback_loop out num keys count acc = Ok res ->
  exists pairs : list (string * pyval),
    res = (acc ++ map (fun p => PTuple [PStr (fst p); snd p]) pairs)%list /\
    Z.of_nat (List.length pairs) <= num - count /\
    Forall (fun p => In (KStr (fst p)) keys /\
                     str_contains "Loopback" (fst p) = true /\
                     (oi <- getstr out "interface" ;;
                      entry <- getstr oi (fst p) ;;
                      getstr entry "ip_address")%monad = Ok (snd p)) pairs /\
    StronglySorted (fun a b => String.leb a b = true) (map fst pairs).
Proof.
  induction 1 as [| k keys Hs IH Hk]; intros count acc res Hc H; simpl in H.
  - injection H as <-. exists []. simpl. rewrite app_nil_r.
    repeat split; try constructor. lia.
  - destruct k as [name | z]; simpl in H; [| discriminate H].
    destruct (str_contains "Loopback" name) eqn:El.
    + destruct (getstr out "interface") as [oi |] eqn:Eo; simpl in H; [| discriminate H].
      destruct (py_getitem oi (PStr name)) as [entry |] eqn:Ee; simpl in H; [| discriminate H].
      destruct (getstr entry "ip_address") as [ip |] eqn:Ei; simpl in H; [| discriminate H].
      assert (Hhere : In (KStr name) (KStr name :: keys) /\
                      str_contains "Loopback" name = true /\
                      (oi' <- Ok oi ;;
                       entry <- getstr oi' name ;;
                       getstr entry "ip_address")%monad = Ok ip).
      { split; [left; reflexivity |]. split; [exact El |].
        simpl. unfold getstr at 1. rewrite Ee. exact Ei. }
      destruct (Z.eqb_spec (count + 1) num) as [Heq | Hne].
      * injection H as <-. exists [(name, ip)]. simpl.
        repeat split; try lia; try apply Hhere.
        -- constructor; [exact Hhere | constructor].
        -- constructor; constructor.
      * destruct (IH (count + 1) _ _ ltac:(lia) H) as (pairs & -> & Hlen & Hall & Hsorted).
        exists ((name, ip) :: pairs). simpl. rewrite <- app_assoc. simpl.
        repeat split; try lia.
        -- constructor; [exact Hhere |].
           eapply Forall_impl; [| exact Hall]. simpl. intros p (Hin & Hp). auto.
        -- constructor; [exact Hsorted |].
           apply Forall_forall. intros n Hn. apply in_map_iff in Hn.
           destruct Hn as (p & <- & Hp). rewrite Forall_forall in Hall, Hk.
           destruct (Hall p Hp) as (Hin & _). exact (Hk _ Hin).
    + destruct (IH count acc res Hc H) as (pairs & -> & Hlen & Hall & Hsorted).
      exists pairs. repeat split; try assumption.
      eapply Forall_impl; [| exact Hall]. simpl. intros p (Hin & Hp). auto.
Qed.

(** X1: for [num >= 1], [get_interface_loopback_ip_address] returns at
    most [num] pairs [(name, ip)]; every name contains "Loopback" and
    [ip] is [out["interface"][name]["ip_address"]]; the names are in
    ascending order. *)
Theorem loopback_ip_address_bounded (S : Type) (h : handler S) (s s' : S)
    (device out v : pyval) (num : Z) :
  1 <= num ->
  h (Parse device "show ip interface brief | include Loopback") s = (Ok out, s') ->
  returned (run (Interface.get_interface_loopback_ip_address device num) h s) = Ok v ->
  exists pairs : list (string * pyval),
    v = PList (map (fun p => PTuple [PStr (fst p); snd p]) pairs) /\
    Z.of_nat (List.length pairs) <= num /\
    Forall (fun p => str_contains "Loopback" (fst p) = true /\
                     (oi <- getstr out "interface" ;;
                      entry <- getstr oi (fst p) ;;
                      getstr entry "ip_address")%monad = Ok (snd p)) pairs /\
    StronglySorted (fun a b => String.leb a b = true) (map fst pairs).
Proof.
  intros Hn Hh. unfold Interface.get_interface_loopback_ip_address, try_event.
  simpl. rewrite Hh. simpl.
  destruct (getstr out "interface") as [oi |] eqn:Eo; simpl; [| discriminate].
  destruct (dict_keys oi) as [keys |] eqn:Ek; simpl; [| discriminate].
  destruct (py_sorted keys) as [sorted |] eqn:Es; simpl; [| discriminate].
  destruct (Interface.loopback_loop out num sorted 0 []) as [l |] eqn:El; simpl; [| discriminate].
  intros Hv. injection Hv as <-.
  destruct (py_sorted_spec _ _ Es) as [Hsorted _].
  destruct (loopback_loop_spec out num sorted Hsorted 0 [] l ltac:(lia) El)
    as (pairs & -> & Hlen & Hall & Hst).
  exists pairs. simpl. repeat split; try assumption; try lia.
  eapply Forall_impl; [| exact Hall]. simpl. intros p (_ & Hp1 & Hp2).
  split; [exact Hp1 |]. rewrite Eo in Hp2. exact Hp2.
Qed.

Lemma loopback_ip_address_bounded_witness :
  exists pairs : list (string * pyval),
    PList [PTuple [PStr "Loopback0"; PStr "10.0.0.1"]]
      = PList (map (fun p => PTuple [PStr (fst p); snd p]) pairs) /\
    Z.of_nat (List.length pairs) <= 1.
Proof.
  destruct (loopback_ip_address_bounded unit brief_device tt tt dev brief_output
              (PList [PTuple [PStr "Loopback0"; PStr "10.0.0.1"]]) 1
              (Z.le_refl 1) eq_refl eq_refl)
    as (pairs & H1 & H2 & _).
  exists pairs. split; assumption.
Defined.

(* --------------------------------------------------------------------- *)
(** *** Exceptions that no getter names *)
(* --------------------------------------------------------------------- *)







(* --------------------------------------------------------------------- *)
(** *** One command per call *)
(* --------------------------------------------------------------------- *)

Lemma within_produces {A : Type} (n : nat) (p : prog A) tr res :
  within n p -> produces p tr res ->
  (List.length (filter is_command (map fst tr)) <= n)%nat /\
  filter is_sleep (map fst tr) = [].
Proof.
  revert n tr. induction p as [a | e | ev k IH]; intros n tr; simpl.
  - intros _ [-> _]. simpl. split; [lia | reflexivity].
  - intros _ [-> _]. simpl. split; [lia | reflexivity].
  - intros [Hs Hw] (r & tr' & -> & Hp). simpl. rewrite Hs.
    destruct (is_command ev).
    + destruct n as [| m]; [contradiction |].
      destruct (IH r m tr' (Hw r) Hp) as [H1 H2]. simpl. split; [lia | exact H2].
    + destruct (IH r n tr' (Hw r) Hp) as [H1 H2]. split; assumption.
Qed.

Lemma within_bind {A B : Type} (c : prog A) (f : A -> prog B) (n : nat) :
  within 0 c -> (forall a, within n (f a)) -> within n (prog_bind c f).
Proof.
  induction c as [a | e | ev k IH]; simpl; auto.
  intros [Hs Hw] Hf. split; [exact Hs |].
  destruct (is_command ev); [contradiction |]. intros r. apply IH; auto.
Qed.

Ltac walk_within :=
  repeat (simpl;
          cbn [is_command is_sleep lift prog_bind prog_catch];
    match goal with
    | |- True => exact I
    | |- _ /\ _ => split
    | |- _ = false => reflexivity
    | |- forall r : result pyval, _ => intros [?|?]
    | |- within _ ?p => let x := head_scrut p in destruct x
    end).

Lemma neighboring_loop_within device its td :
  within 0 (Interface.neighboring_loop device its td).
Proof.
  revert td. induction its as [| it rest IH]; intros td; simpl; [exact I |].
  walk_within; apply IH.
Qed.

Ltac unfold_getter_within :=
  lazymatch goal with
  | |- within _ (?f _ _ _ _ _) => unfold f
  | |- within _ (?f _ _ _ _) => unfold f
  | |- within _ (?f _ _ _) => unfold f
  | |- within _ (?f _ _) => unfold f
  | |- within _ (?f _) => unfold f
  end.

Lemma getters_within_one (X : externals) (g : getter) :
  samples_twice g = false -> within 1 (call X g).
Proof.
  destruct g; intros Hg; try discriminate Hg; clear Hg; unfold call;
  lazymatch goal with
  | |- within _ (Interface.get_neighboring_device_interface _ _ _) =>
      unfold Interface.get_neighboring_device_interface; walk_within;
      cbn [lift prog_bind];
      (apply within_bind; [apply neighboring_loop_within |]);
      intros td; walk_within
  | |- _ => unfold_getter_within; walk_within
  end.
Qed.

(** X3: apart from [get_interface_packet_output_rate], a getter runs at
    most one command on the device per call ([execute] or [parse]) and
    never sleeps. *)
Theorem getters_are_one_shot (X : externals) (g : getter) (S : Type)
    (h : handler S) (s : S) :
  samples_twice g = false ->
  (List.length (filter is_command (events (run (call X g) h s))) <= 1)%nat /\
  filter is_sleep (events (run (call X g) h s)) = [].
Proof.
  intros Hg.
  exact (within_produces 1 (call X g) _ _ (getters_within_one X g Hg)
           (run_produces (call X g) h s)).
Qed.

Lemma getters_are_one_shot_witness :
  (List.length (filter is_command
     (events (run (call sample_externals (Get_interface_loopback_ip_address dev 1))
                  brief_device tt))) <= 1)%nat.
Proof.
  exact (proj1 (getters_are_one_shot sample_externals
                  (Get_interface_loopback_ip_address dev 1) unit brief_device tt eq_refl)).
Defined.

(* --------------------------------------------------------------------- *)
(** *** [get_bundled_interface] *)
(* --------------------------------------------------------------------- *)

Lemma bundled_loop_spec (out : pyval) (pc : string) (exclude_interface : option string)
    (members : list pyval) (v : pyval) :
  Interface.bundled_loop out pc exclude_interface members = Ok (Some v) ->
  In v members /\
  (exists b, (i <- getstr out "interfaces" ;;
              c <- getstr i pc ;;
              m <- getstr c "members" ;;
              e <- py_getitem m v ;;
              getstr e "bundled") = Ok b /\ truthy b = true) /\
  (forall x, exclude_interface = Some x -> x <> "" -> py_eq_str v x = false).
Proof.
  induction members as [| intf rest IH]; simpl; [discriminate |].
  destruct (getstr out "interfaces") as [i |] eqn:E1; simpl; [| discriminate].
  destruct (getstr i pc) as [c |] eqn:E2; simpl; [| discriminate].
  destruct (getstr c "members") as [m |] eqn:E3; simpl; [| discriminate].
  destruct (py_getitem m intf) as [e |] eqn:E4; simpl; [| discriminate].
  destruct (getstr e "bundled") as [b |] eqn:E5; simpl; [| discriminate].
  assert (Hhere : truthy b = true ->
            exists b0, match py_getitem m intf with
                       | Ok a => getstr a "bundled"
                       | Err e0 => Err e0
                       end = Ok b0 /\ truthy b0 = true).
  { intros Ht. exists b. rewrite E4. auto. }
  assert (Hrest : Interface.bundled_loop out pc exclude_interface rest = Ok (Some v) ->
            In v (intf :: rest) /\
            (exists b0, match py_getitem m v with
                        | Ok a => getstr a "bundled"
                        | Err e0 => Err e0
                        end = Ok b0 /\ truthy b0 = true) /\
            (forall x, exclude_interface = Some x -> x <> "" -> py_eq_str v x = false)).
  { intros H. destruct (IH H) as (Hin & Hb & Hx).
    repeat (simpl in Hb; first [rewrite E1 in Hb | rewrite E2 in Hb | rewrite E3 in Hb]).
    split; [right; exact Hin |]. split; [exact Hb | exact Hx]. }
  destruct (truthy b) eqn:Et; [| exact Hrest].
  destruct exclude_interface as [x |].
  - destruct (negb (String.eqb x "") && py_eq_str intf x) eqn:Ex; [exact Hrest |].
    intros H. injection H as <-. split; [left; reflexivity |]. split; [auto |].
    intros x' Hx' Hne. injection Hx' as <-.
    apply andb_false_iff in Ex. destruct Ex as [Ex | Ex]; [| exact Ex].
    apply negb_false_iff in Ex. apply String.eqb_eq in Ex. contradiction.
  - intros H. injection H as <-. split; [left; reflexivity |]. split; [auto |]. discriminate.
Qed.

(** X4: the interface that [get_bundled_interface] returns is a member
    of the port channel whose "bundled" flag is set, and it is not the
    excluded interface. *)
Theorem bundled_interface_is_bundled (X : externals) (S : Type) (h : handler S) (s s' : S)
    (device out v : pyval) (port_channel : string) (exclude_interface : option string) :
  h (Parse device "show etherchannel summary") s = (Ok out, s') ->
  returned (run (Interface.get_bundled_interface X device port_channel exclude_interface) h s)
    = Ok v ->
  v = PNone \/
  ((exists b, (i <- getstr out "interfaces" ;;
               c <- getstr i (str_capitalize X port_channel) ;;
               m <- getstr c "members" ;;
               e <- py_getitem m v ;;
               getstr e "bundled") = Ok b /\ truthy b = true) /\
   (forall x, exclude_interface = Some x -> x <> "" -> py_eq_str v x = false)).
Proof.
  intros Hh Hv. unfold Interface.get_bundled_interface in Hv. simpl in Hv.
  rewrite Hh in Hv. simpl in Hv. rewrite run_lift in Hv.
  follow Hv; injection Hv as <-; try (left; reflexivity).
  right.
  match goal with
  | El : Interface.bundled_loop _ _ _ _ = Ok (Some _) |- _ =>
      destruct (bundled_loop_spec _ _ _ _ _ El) as (_ & Hb & Hx)
  end.
  split; [| exact Hx]. rewrite <- E2. exact Hb.
Qed.

Lemma bundled_interface_is_bundled_witness :
  PStr "GigabitEthernet2" = PNone \/
  ((exists b, (i <- getstr channel_output "interfaces" ;;
               c <- getstr i "Port-channel1" ;;
               m <- getstr c "members" ;;
               e <- py_getitem m (PStr "GigabitEthernet2") ;;
               getstr e "bundled") = Ok b /\ truthy b = true) /\
   (forall x, Some "GigabitEthernet1" = Some x -> x <> "" ->
              py_eq_str (PStr "GigabitEthernet2") x = false)).
Proof.
  exact (bundled_interface_is_bundled sample_externals unit (answering channel_output) tt tt
           dev channel_output (PStr "GigabitEthernet2") "Port-channel1"
           (Some "GigabitEthernet1") eq_refl eq_refl).
Defined.

(* --------------------------------------------------------------------- *)
(** *** [get_interface_with_up_state] *)
(* --------------------------------------------------------------------- *)

Lemma with_up_state_loop_spec (virtual_interface : option bool)
    (items : list (pyval * pyval)) (v : pyval) :
  Interface.with_up_state_loop virtual_interface items = Ok (Some v) ->
  exists data status,
    In (v, data) items /\
    getstr data "oper_status" = Ok status /\
    py_eq_str status "up" = true /\
    (forall flag, virtual_interface = Some flag -> py_in "." v = Ok flag).
Proof.
  induction items as [| [interface interface_data] rest IH]; simpl; [discriminate |].
  destruct (getstr interface_data "oper_status") as [status |] eqn:Es; simpl;
    [| discriminate].
  assert (Hrest : Interface.with_up_state_loop virtual_interface rest = Ok (Some v) ->
            exists data status0,
              ((interface, interface_data) = (v, data) \/ In (v, data) rest) /\
              getstr data "oper_status" = Ok status0 /\
              py_eq_str status0 "up" = true /\
              (forall flag, virtual_interface = Some flag -> py_in "." v = Ok flag)).
  { intros H. destruct (IH H) as (data & st & Hin & H1 & H2 & H3).
    exists data, st. auto. }
  destruct (py_eq_str status "up") eqn:Eu; [| exact Hrest].
  destruct virtual_interface as [flag |].
  - destruct (py_in "." interface) as [dotted |] eqn:Ed; simpl; [| discriminate].
    destruct (Bool.eqb flag dotted) eqn:Ef; [| exact Hrest].
    intros H. injection H as <-. exists interface_data, status.
    repeat split; auto. intros flag' Hf. injection Hf as <-.
    apply Bool.eqb_prop in Ef. subst. exact Ed.
  - intros H. injection H as <-. exists interface_data, status.
    repeat split; auto. discriminate.
Qed.

(** X5: the interface that [get_interface_with_up_state] returns is an
    entry of the parsed output whose "oper_status" is "up"; when
    [virtual_interface] is given, the name contains a dot exactly when
    the flag is set. *)
Theorem interface_with_up_state_is_up (S : Type) (h : handler S) (s s' : S)
    (device out v : pyval) (interface_type : string) (virtual_interface : option bool) :
  h (Parse device ("show ip interface | include ^" ++ interface_type)) s = (Ok out, s') ->
  returned (run (Interface.get_interface_with_up_state device interface_type
                   virtual_interface) h s) = Ok v ->
  v = PNone \/
  (exists items data status,
     py_items out = Ok items /\
     In (v, data) items /\
     getstr data "oper_status" = Ok status /\
     py_eq_str status "up" = true /\
     (forall flag, virtual_interface = Some flag -> py_in "." v = Ok flag)).
Proof.
  intros Hh Hv. unfold Interface.get_interface_with_up_state, try_event in Hv.
  simpl in Hv. rewrite Hh in Hv. simpl in Hv. rewrite run_lift in Hv.
  follow Hv; injection Hv as <-; try (left; reflexivity).
  right.
  match goal with
  | El : Interface.with_up_state_loop _ _ = Ok (Some _) |- _ =>
      destruct (with_up_state_loop_spec _ _ _ El) as (data & status & Hin & H1 & H2 & H3)
  end.
  eauto 10.
Qed.

Lemma interface_with_up_state_is_up_witness :
  PStr "GigabitEthernet2.1" = PNone \/
  (exists items data status,
     py_items status_output = Ok items /\
     In (PStr "GigabitEthernet2.1", data) items /\
     getstr data "oper_status" = Ok status /\
     py_eq_str status "up" = true /\
     (forall flag, Some true = Some flag -> py_in "." (PStr "GigabitEthernet2.1") = Ok flag)).
Proof.
  exact (interface_with_up_state_is_up unit (answering status_output) tt tt dev
           status_output (PStr "GigabitEthernet2.1") "GigabitEthernet" (Some true)
           eq_refl eq_refl).
Defined.

(* --------------------------------------------------------------------- *)
(** *** [get_interface_ip_address] *)
(* --------------------------------------------------------------------- *)

Lemma py_get_getstr (d : pyval) (k : string) (default x y : pyval) :
  getstr d k = Ok y -> py_get d k default = Ok x -> x = y.
Proof.
  unfold getstr, py_get, py_getitem. destruct d; try discriminate. simpl.
  destruct (lookup (KStr k) d); [| discriminate]. congruence.
Qed.

(** X6: [get_interface_ip_address] returns [None] or the "ip_address"
    entry of the interface, and never the string "unassigned". *)
Theorem interface_ip_address_assigned (S : Type) (h : handler S) (s : S)
    (device out v : pyval) (interface : string) :
  let o := run (Interface.get_interface_ip_address device interface) h s in
  In (Parse device ("show ip interface brief " ++ interface), Ok out) (transcript o) ->
  returned o = Ok v ->
  v = PNone \/
  ((oi <- getstr out "interface" ;;
    entry <- getstr oi interface ;;
    getstr entry "ip_address") = Ok v /\
   py_eq_str v "unassigned" = false).
Proof.
  cbv zeta. apply via_produces. intros tr res Hp Hin Hv.
  unfold Interface.get_interface_ip_address, try_event in Hp.
  unroll Hp; try discriminate Hv; injection Hv as ->; locate Hin.
  injection Hin as ->.
  follow E1; try (injection E1 as <-; left; reflexivity).
  right.
  match goal with
  | Hg : py_get ?oi interface _ = Ok _, Hs : getstr ?oi interface = Ok _ |- _ =>
      pose proof (py_get_getstr _ _ _ _ _ Hs Hg); subst
  end.
  match goal with
  | Hg : py_get ?e "ip_address" _ = Ok _, Hs : getstr ?e "ip_address" = Ok _ |- _ =>
      pose proof (py_get_getstr _ _ _ _ _ Hs Hg); subst
  end.
  split.
  - simpl.
    match goal with Hs : getstr _ interface = Ok _ |- _ => rewrite Hs end.
    assumption.
  - match goal with
    | H : _ || py_eq_str _ "unassigned" = false |- _ =>
        apply orb_false_iff in H; destruct H as [_ H]; exact H
    end.
Qed.

Lemma interface_ip_address_assigned_witness :
  PStr "10.0.0.1" = PNone \/
  ((oi <- getstr address_output "interface" ;;
    entry <- getstr oi "GigabitEthernet1" ;;
    getstr entry "ip_address") = Ok (PStr "10.0.0.1") /\
   py_eq_str (PStr "10.0.0.1") "unassigned" = false).
Proof.
  apply (interface_ip_address_assigned unit (answering address_output) tt dev
           address_output (PStr "10.0.0.1") "GigabitEthernet1").
  - simpl. right. right. left. reflexivity.
  - reflexivity.
Defined.

(* --------------------------------------------------------------------- *)
(** *** [get_interface_address_mask_running_config] *)
(* --------------------------------------------------------------------- *)

Lemma address_mask_loop_first (X : externals) (before : list string) (line : string)
    (rest : list string) (m : re_match_obj) :
  Forall (fun l => re_match X address_mask_pattern (str_strip X l) = None) before ->
  re_match X address_mask_pattern (str_strip X line) = Some m ->
  Interface.address_mask_loop X (before ++ line :: rest)%list
    = (ip_address <- getstr (PDict (groupdict m)) "address" ;;
       mask <- getstr (PDict (groupdict m)) "mask" ;;
       ret (PTuple [ip_address; mask])).
Proof.
  intros Hb Hm. induction Hb as [| l before Hl Hb IH]; simpl.
  - unfold address_mask_pattern in Hm. rewrite Hm. reflexivity.
  - unfold address_mask_pattern in Hl. rewrite Hl. exact IH.
Qed.

Lemma address_mask_loop_none (X : externals) (lines : list string) :
  Forall (fun l => re_match X address_mask_pattern (str_strip X l) = None) lines ->
  Interface.address_mask_loop X lines = Ok PNone.
Proof.
  induction 1 as [| l lines Hl Hb IH]; simpl; [reflexivity |].
  unfold address_mask_pattern in Hl. rewrite Hl. exact IH.
Qed.

(** X7: [get_interface_address_mask_running_config] returns
    [(None, None)] when the command prints nothing, the address and mask
    of the first line that matches, and plain [None], not a pair, when
    the output is not empty and no line matches. *)
Theorem address_mask_running_config_outcomes (X : externals) (S : Type) (h : handler S)
    (s s' : S) (device output : pyval) (interface : string) :
  h (Execute device ("show running-config interface " ++ convert_intf_name X interface)) s
    = (Ok output, s') ->
  let r := returned (run (Interface.get_interface_address_mask_running_config X device
                            interface) h s) in
  (truthy output = false -> r = Ok (PTuple [PNone; PNone])) /\
  (forall text,
     output = PStr text -> text <> "" ->
     Forall (fun l => re_match X address_mask_pattern (str_strip X l) = None)
            (str_splitlines X text) ->
     r = Ok PNone) /\
  (forall text before line rest m,
     output = PStr text -> text <> "" ->
     str_splitlines X text = (before ++ line :: rest)%list ->
     Forall (fun l => re_match X address_mask_pattern (str_strip X l) = None) before ->
     re_match X address_mask_pattern (str_strip X line) = Some m ->
     r = (ip_address <- getstr (PDict (groupdict m)) "address" ;;
          mask <- getstr (PDict (groupdict m)) "mask" ;;
          ret (PTuple [ip_address; mask]))).
Proof.
  intros Hh r. subst r.
  unfold Interface.get_interface_address_mask_running_config, try_event.
  simpl. rewrite Hh. simpl.
  assert (Hne : forall text, text <> "" -> negb (negb (String.eqb text "")) = false).
  { intros text Hne. destruct (String.eqb_spec text ""); [contradiction | reflexivity]. }
  split; [| split].
  - intros Ht. rewrite Ht. reflexivity.
  - intros text -> Hn Hall. simpl. rewrite (Hne text Hn). simpl.
    rewrite run_lift. apply address_mask_loop_none. exact Hall.
  - intros text before line rest m -> Hn Hsplit Hb Hm. simpl. rewrite (Hne text Hn).
    simpl. rewrite run_lift, Hsplit. apply address_mask_loop_first; assumption.
Qed.

Lemma address_mask_running_config_outcomes_witness :
  returned (run (Interface.get_interface_address_mask_running_config sample_externals dev
                   "Gi1") silent_device tt) = Ok (PTuple [PNone; PNone]).
Proof.
  exact (proj1 (address_mask_running_config_outcomes sample_externals unit silent_device
                  tt tt dev (PStr "") "Gi1" eq_refl) eq_refl).
Defined.

(* --------------------------------------------------------------------- *)
(** *** [get_interface_netmask] *)
(* --------------------------------------------------------------------- *)

Lemma parse_octet_error (s : string) (e : exn) : parse_octet s = Err e -> e = ValueError.
Proof.
  unfold parse_octet. destruct s as [| first rest]; [congruence |].
  repeat match goal with
         | |- context [if ?b then _ else _] => destruct b
         end; congruence.
Qed.

Lemma IPv4Address_error (address : string) (e : exn) :
  IPv4Address address = Err e -> e = ValueError.
Proof.
  unfold IPv4Address.
  destruct (str_contains "/" address); [congruence |].
  destruct (String.eqb address ""); [congruence |].
  destruct (split_on "."%char address) as [| a [| b [| c [| d [| ? ?]]]]]; try congruence.
  simpl.
  destruct (parse_octet a) as [za |] eqn:Ea; [| intros [= <-]; eapply parse_octet_error; eauto].
  destruct (parse_octet b) as [zb |] eqn:Eb; [| intros [= <-]; eapply parse_octet_error; eauto].
  destruct (parse_octet c) as [zc |] eqn:Ec; [| intros [= <-]; eapply parse_octet_error; eauto].
  destruct (parse_octet d) as [zd |] eqn:Ed; [| intros [= <-]; eapply parse_octet_error; eauto].
  discriminate.
Qed.

(** X8: [get_interface_netmask] has five outcomes: "/8", "/16", "/24"
    or [None] for a dotted-quad address, and [ValueError] for any other
    string. *)
Theorem get_interface_netmask_outcomes (ip_address : string) :
  (exists ip, IPv4Address ip_address = Ok ip /\
     (Interface.get_interface_netmask ip_address = Ok (PStr "/8") \/
      Interface.get_interface_netmask ip_address = Ok (PStr "/16") \/
      Interface.get_interface_netmask ip_address = Ok (PStr "/24") \/
      Interface.get_interface_netmask ip_address = Ok PNone)) \/
  (IPv4Address ip_address = Err ValueError /\
   Interface.get_interface_netmask ip_address = Err ValueError).
Proof.
  unfold Interface.get_interface_netmask.
  change (IPv4Address "127.0.0.0") with (Ok 2130706432 : result Z).
  change (IPv4Address "191.255.0.0") with (Ok 3221159936 : result Z).
  change (IPv4Address "223.255.255.0") with (Ok 3758096128 : result Z).
  destruct (IPv4Address ip_address) as [ip | e] eqn:E.
  - left. exists ip. split; [reflexivity |]. simpl.
    destruct (ip <? 2130706432); [auto |].
    destruct (ip <? 3221159936); [auto |].
    destruct (ip <? 3758096128); auto.
  - right. rewrite (IPv4Address_error _ _ E). split; reflexivity.
Qed.

(* --------------------------------------------------------------------- *)
(** *** [get_interface_connected_adjacent_router_interfaces] *)
(* --------------------------------------------------------------------- *)

Lemma slice_to_length (l : list pyval) (num : Z) :
  0 <= num -> Z.of_nat (List.length (slice_to l num)) <= num.
Proof.
  intros Hn. unfold slice_to.
  destruct (Z.ltb_spec num 0) as [Hlt | _]; [lia |].
  rewrite length_firstn. lia.
Qed.

(** X9: [get_interface_connected_adjacent_router_interfaces] returns
    [None] for an alias the device does not have; otherwise [None] or the
    first [num] remote interfaces, at most [num] of them when [num] is
    not negative. *)
Theorem connected_adjacent_router_interfaces_bounded (S : Type) (h : handler S) (s : S)
    (device : pyval) (link_name : string) (num : Z) :
  let o := run (Interface.get_interface_connected_adjacent_router_interfaces device
                  link_name num) h s in
  (forall d, In (GetAttr device "interfaces", Ok (PDict d)) (transcript o) ->
             lookup (KStr link_name) d = None ->
             returned o = Ok PNone) /\
  (forall v, returned o = Ok v ->
             v = PNone \/
             exists remote all,
               In (GetAttr remote "remote_interfaces", Ok all) (transcript o) /\
               exists l, py_iter all = Ok l /\
                         v = PList (slice_to l num) /\
                         (0 <= num -> Z.of_nat (List.length (slice_to l num)) <= num)).
Proof.
  cbv zeta. apply via_produces. intros tr res Hp.
  unfold Interface.get_interface_connected_adjacent_router_interfaces in Hp.
  split.
  - intros d Hin Hl. unroll Hp; locate Hin; try (injection Hin as ->); try reflexivity.
    all: try match goal with
           | E : getstr (PDict ?d) _ = _, Hl : lookup _ ?d = None |- _ =>
               unfold getstr, py_getitem in E; simpl in E; rewrite Hl in E;
               try discriminate E
           end.
  - intros v Hv. unroll Hp; try discriminate Hv; injection Hv as <-;
      try (left; reflexivity).
    right. do 2 eexists. split; [simpl; right; left; reflexivity |].
    eexists. split; [eassumption |]. split; [reflexivity |].
    apply slice_to_length.
Qed.

Lemma connected_adjacent_router_interfaces_bounded_witness :
  returned (run (Interface.get_interface_connected_adjacent_router_interfaces dev "uplink" 1)
                blank_world tt) = Ok PNone.
Proof.
  apply (proj1 (connected_adjacent_router_interfaces_bounded unit blank_world tt dev
                  "uplink" 1) []).
  - simpl. left. reflexivity.
  - reflexivity.
Defined.

(* --------------------------------------------------------------------- *)
(** *** [get_mpls_ldp_session_count] *)
(* --------------------------------------------------------------------- *)

Lemma session_count_loop_spec (output_ldp : pyval) (vrfs : list pyval) (acc n : Z) :
  Mpls.session_count_loop output_ldp vrfs acc = Ok n ->
  exists counts,
    Forall2 (fun vrf c => peers_of output_ldp vrf = Ok c) vrfs counts /\
    n = acc + Z.of_nat (list_sum counts).
Proof.
  revert acc. induction vrfs as [| vrf rest IH]; intros acc; simpl.
  - intros H. injection H as <-. exists []. split; [constructor | simpl; lia].
  - destruct (getstr output_ldp "vrf") as [v |] eqn:E1; simpl; [| discriminate].
    destruct (py_getitem v vrf) as [e |] eqn:E2; simpl; [| discriminate].
    destruct (getstr e "peers") as [peers |] eqn:E3; simpl; [| discriminate].
    destruct (dict_keys peers) as [keys |] eqn:E4; simpl; [| discriminate].
    intros H. destruct (IH _ H) as (counts & Hall & ->).
    exists (List.length keys :: counts). split.
    + constructor; [| exact Hall].
      unfold peers_of. simpl. rewrite E1. simpl. rewrite E2. simpl. rewrite E3. simpl.
      rewrite E4. reflexivity.
    + simpl. lia.
Qed.

(** X10: the count that [get_mpls_ldp_session_count] returns is the
    number of peers summed over the VRFs of the parsed output. *)
Theorem ldp_session_count_is_total (S : Type) (h : handler S) (s : S)
    (device output_ldp v : pyval) :
  let o := run (Mpls.get_mpls_ldp_session_count device) h s in
  In (Parse device "show mpls ldp neighbor", Ok output_ldp) (transcript o) ->
  returned o = Ok v ->
  exists vrfs counts,
    (d <- getstr output_ldp "vrf" ;; py_iter d) = Ok vrfs /\
    Forall2 (fun vrf c => peers_of output_ldp vrf = Ok c) vrfs counts /\
    v = PInt (Z.of_nat (list_sum counts)).
Proof.
  cbv zeta. apply via_produces. intros tr res Hp Hin Hv.
  unfold Mpls.get_mpls_ldp_session_count, try_event in Hp.
  unroll Hp; try discriminate Hv; injection Hv as <-; locate Hin.
  injection Hin as ->.
  match goal with
  | E : _ = Ok ?n |- _ => follow E
  end.
  match goal with
  | E : Mpls.session_count_loop _ _ _ = Ok _ |- _ =>
      destruct (session_count_loop_spec _ _ _ _ E) as (counts & Hall & ->)
  end.
  do 2 eexists. split; [| split; [exact Hall | reflexivity]].
  simpl.
  repeat match goal with
         | H : ?x = Ok _ |- context [?x] => rewrite H; simpl
         end.
  reflexivity.
Qed.

Lemma ldp_session_count_is_total_witness :
  exists vrfs counts,
    (d <- getstr neighbor_output "vrf" ;; py_iter d) = Ok vrfs /\
    Forall2 (fun vrf c => peers_of neighbor_output vrf = Ok c) vrfs counts /\
    PInt 2 = PInt (Z.of_nat (list_sum counts)).
Proof.
  apply (ldp_session_count_is_total unit (answering neighbor_output) tt dev
           neighbor_output (PInt 2)).
  - simpl. right. left. reflexivity.
  - reflexivity.
Defined.

(* --------------------------------------------------------------------- *)
(** *** An interface missing from the parsed output *)
(* --------------------------------------------------------------------- *)

Lemma getstr_missing (d : list (key * pyval)) (k : string) :
  lookup (KStr k) d = None -> getstr (PDict d) k = Err KeyError.
Proof. intros H. unfold getstr, py_getitem. simpl. rewrite H. reflexivity. Qed.

(** X11: when the parsed output of "show interfaces <interface>" has no
    entry for the interface, [get_interface_mtu_size],
    [get_interface_mac_address] and [get_interface_carrier_delay] raise
    [KeyError], while [get_interface_port_channel_members] returns
    [None]. *)
Theorem missing_interface_raises_KeyError (S : Type) (h : handler S) (s : S)
    (device : pyval) (interface delay_type : string) (d : list (key * pyval)) :
  lookup (KStr interface) d = None ->
  let answered (o : outcome pyval S) :=
    In (Parse device ("show interfaces " ++ interface), Ok (PDict d)) (transcript o) in
  (answered (run (Interface.get_interface_mtu_size device interface) h s) ->
   returned (run (Interface.get_interface_mtu_size device interface) h s) = Err KeyError) /\
  (answered (run (Interface.get_interface_mac_address device interface) h s) ->
   returned (run (Interface.get_interface_mac_address device interface) h s) = Err KeyError) /\
  (answered (run (Interface.get_interface_carrier_delay device interface delay_type) h s) ->
   returned (run (Interface.get_interface_carrier_delay device interface delay_type) h s)
     = Err KeyError) /\
  (answered (run (Interface.get_interface_port_channel_members device interface) h s) ->
   returned (run (Interface.get_interface_port_channel_members device interface) h s)
     = Ok PNone).
Proof.
  intros Hl. cbv zeta. pose proof (getstr_missing d interface Hl) as Hg.
  repeat split.
  - apply via_produces. intros tr res Hp Hin.
    unfold Interface.get_interface_mtu_size, try_event in Hp.
    unroll Hp; locate Hin; injection Hin as ->;
      match goal with E : _ = _ |- _ => rewrite Hg in E; simpl in E; congruence end.

  - apply via_produces. intros tr res Hp Hin.
    unfold Interface.get_interface_mac_address, try_event in Hp.
    unroll Hp; locate Hin; injection Hin as ->;
      match goal with E : _ = _ |- _ => rewrite Hg in E; simpl in E; congruence end.

  - apply via_produces. intros tr res Hp Hin.
    unfold Interface.get_interface_carrier_delay, try_event in Hp.
    unroll Hp; locate Hin; injection Hin as ->;
      match goal with E : _ = _ |- _ => rewrite Hg in E; simpl in E; congruence end.
  - apply via_produces. intros tr res Hp Hin.
    unfold Interface.get_interface_port_channel_members, try_event in Hp.
    unroll Hp; locate Hin; injection Hin as ->;
      match goal with E : _ = _ |- _ => rewrite Hg in E; simpl in E; congruence end.
Qed.

Lemma missing_interface_raises_KeyError_witness :
  returned (run (Interface.get_interface_mtu_size dev "Gi1") (answering (PDict [])) tt)
    = Err KeyError /\
  returned (run (Interface.get_interface_port_channel_members dev "Gi1")
                (answering (PDict [])) tt) = Ok PNone.
Proof.
  pose proof (missing_interface_raises_KeyError unit (answering (PDict [])) tt dev
                "Gi1" "up" [] eq_refl) as H.
  split.
  - apply (proj1 H). simpl. left. reflexivity.
  - apply (proj2 (proj2 (proj2 H))). simpl. left. reflexivity.
Defined.

(* --------------------------------------------------------------------- *)
(** *** [get_interface_interfaces_ldp_enabled] *)
(* --------------------------------------------------------------------- *)

Lemma convert_all_names (X : externals) (names : list string) :
  Mpls.convert_all X (map KStr names)
    = Ok (map (fun n => PStr (convert_intf_name X n)) names).
Proof.
  induction names as [| n names IH]; simpl; [reflexivity |].
  rewrite IH. reflexivity.
Qed.

(** X12: [get_interface_interfaces_ldp_enabled] looks under the VRF
    "default" when [vrf] is empty; it returns the interface names of that
    VRF in the order of the parsed output, each through
    [Common.convert_intf_name], and the empty list when a key on the
    path is missing. *)
Theorem interfaces_ldp_enabled_default_vrf (X : externals) (S : Type) (h : handler S)
    (s s' : S) (device out : pyval) (vrf : string) :
  h (Parse device "show mpls interfaces detail") s = (Ok out, s') ->
  let vrf' := if String.eqb vrf "" then "default" else vrf in
  let found := (v <- getstr out "vrf" ;;
                e <- getstr v vrf' ;;
                i <- getstr e "interfaces" ;;
                dict_keys i) in
  let r := returned (run (Mpls.get_interface_interfaces_ldp_enabled X device vrf) h s) in
  (found = Err KeyError -> r = Ok (PList [])) /\
  (forall names, found = Ok (map KStr names) ->
     r = Ok (PList (map (fun n => PStr (convert_intf_name X n)) names))).
Proof.
  intros Hh vrf' found r. subst r.
  unfold Mpls.get_interface_interfaces_ldp_enabled, try_event. simpl. rewrite Hh. simpl.
  replace (if negb (String.eqb vrf "") then vrf else "default") with vrf'
    by (unfold vrf'; destruct (String.eqb vrf ""); reflexivity).
  assert (Hf : found = match getstr out "vrf" with
                       | Ok v => match getstr v vrf' with
                                 | Ok e => match getstr e "interfaces" with
                                           | Ok i => dict_keys i
                                           | Err x => Err x
                                           end
                                 | Err x => Err x
                                 end
                       | Err x => Err x
                       end) by reflexivity.
  clearbody found. subst found.
  destruct (getstr out "vrf") as [v |]; simpl.
  2:{ split; [intros [= ->]; reflexivity | discriminate]. }
  destruct (getstr v vrf') as [e |]; simpl.
  2:{ split; [intros [= ->]; reflexivity | discriminate]. }
  destruct (getstr e "interfaces") as [i |]; simpl.
  2:{ split; [intros [= ->]; reflexivity | discriminate]. }
  destruct (dict_keys i) as [keys |]; simpl.
  2:{ split; [intros [= ->]; reflexivity | discriminate]. }
  split; [discriminate |].
  intros names [= ->]. rewrite convert_all_names. reflexivity.
Qed.

Lemma interfaces_ldp_enabled_default_vrf_witness :
  returned (run (Mpls.get_interface_interfaces_ldp_enabled sample_externals dev "")
                (answering ldp_output) tt) = Ok (PList [PStr "GigabitEthernet1"]).
Proof.
  exact (proj2 (interfaces_ldp_enabled_default_vrf sample_externals unit
                  (answering ldp_output) tt tt dev ldp_output "" eq_refl)
           ["GigabitEthernet1"] eq_refl).
Defined.

(* --------------------------------------------------------------------- *)
(** *** [get_unused_loopback_interface] *)
(* --------------------------------------------------------------------- *)

Lemma sorted_last (l : list key) (d : key) :
  StronglySorted key_le l -> l <> [] ->
  forall k, In k l -> k = List.last l d \/ key_le k (List.last l d).
Proof.
  induction 1 as [| a l Hs IH Ha]; intros Hne k Hin; [contradiction |].
  destruct l as [| b l'].
  - destruct Hin as [<- | []]. left. reflexivity.
  - change (List.last (a :: b :: l') d) with (List.last (b :: l') d).
    destruct Hin as [<- | Hin].
    + right. rewrite Forall_forall in Ha. apply Ha.
      clear. generalize b. induction l' as [| c l' IH]; intros b0; simpl; [auto |].
      right. apply IH.
    + apply IH; [discriminate | exact Hin].
Qed.

Lemma nth_error_last (l : list pyval) (a d : pyval) :
  nth_error (a :: l) (List.length l) = Some (List.last (a :: l) d).
Proof.
  revert a. induction l as [| b l IH]; intros a; [reflexivity |].
  change (List.last (a :: b :: l) d) with (List.last (b :: l) d).
  exact (IH b).
Qed.

Lemma getitem_last (l : list pyval) (d v : pyval) :
  py_getitem (PList l) (PInt (-1)) = Ok v -> l <> [] /\ v = List.last l d.
Proof.
  unfold py_getitem. cbn [as_key]. unfold seq_index.
  change (-1 <? 0) with true. cbv iota.
  destruct l as [| a l]; [discriminate |].
  assert (Hi : -1 + Z.of_nat (List.length (a :: l)) = Z.of_nat (List.length l))
    by (cbn [List.length]; lia).
  rewrite Hi.
  assert (H1 : (0 <=? Z.of_nat (List.length l)) = true) by (apply Z.leb_le; lia).
  assert (H2 : (Z.of_nat (List.length l) <? Z.of_nat (List.length (a :: l))) = true)
    by (apply Z.ltb_lt; cbn [List.length]; lia).
  rewrite H1, H2. cbn [andb]. rewrite Nat2Z.id, (nth_error_last l a d).
  intros H. injection H as <-. split; [discriminate | reflexivity].
Qed.

Lemma last_map_key_val (l : list key) (d : key) :
  List.last (map key_val l) (key_val d) = key_val (List.last l d).
Proof.
  induction l as [| a l IH]; [reflexivity |].
  destruct l as [| b l]; [reflexivity |]. exact IH.
Qed.

Lemma key_val_inj (a b : key) : key_val a = key_val b -> a = b.
Proof. destruct a, b; simpl; congruence. Qed.

Lemma last_in (l : list key) (d : key) : l <> [] -> In (List.last l d) l.
Proof.
  induction l as [| a l IH]; [contradiction |]. intros _.
  destruct l as [| b l]; [left; reflexivity |].
  right. apply IH. discriminate.
Qed.

Lemma string_leb_refl (a : string) : String.leb a a = true.
Proof. destruct (String.leb_total a a); assumption. Qed.

(** X13: the name that [get_unused_loopback_interface] returns is
    "Loopback" followed by one more than the number after the first
    eight characters of the interface name that is last in the order of
    strings. *)
Theorem unused_loopback_follows_last_name (X : externals) (S : Type) (h : handler S)
    (s s' : S) (device out v : pyval) :
  h (Parse device "show ip interface brief | include Loopback") s = (Ok out, s') ->
  returned (run (Interface.get_unused_loopback_interface X device) h s) = Ok v ->
  v = PNone \/
  exists keys last n z,
    (oi <- getstr out "interface" ;; dict_keys oi) = Ok keys /\
    In (KStr last) keys /\
    (forall name, In (KStr name) keys -> String.leb name last = true) /\
    py_int X (PStr (str_from 8 last)) = Ok n /\
    as_int n = Some z /\
    v = PStr ("Loopback" ++ str_of_Z (z + 1)).
Proof.
  intros Hh Hv. unfold Interface.get_unused_loopback_interface, try_event in Hv.
  simpl in Hv. rewrite Hh in Hv. simpl in Hv.
  destruct (truthy out); [| injection Hv as <-; left; reflexivity].
  rewrite run_lift in Hv.
  follow Hv. injection Hv as <-. right.
  assert (Hg : py_getitem (PList (map key_val a1)) (PInt (-1)) = Ok (PStr s0)).
  { unfold py_getitem. cbn [as_key]. rewrite E2, E3. reflexivity. }
  destruct (py_sorted_spec _ _ E1) as [Hsorted Hin].
  destruct (getitem_last _ (key_val (KStr s0)) _ Hg) as [Hne Hlast].
  rewrite last_map_key_val in Hlast.
  change (PStr s0) with (key_val (KStr s0)) in Hlast. apply key_val_inj in Hlast.
  assert (Hne' : a1 <> []) by (intros ->; apply Hne; reflexivity).
  exists a0, s0, a2, z.
  split; [simpl; exact E0 |]. split.
  { apply Hin. rewrite Hlast. apply last_in. exact Hne'. }
  split.
  { intros name Hname. apply Hin in Hname.
    destruct (sorted_last a1 (KStr s0) Hsorted Hne' _ Hname) as [Heq | Hle].
    - rewrite <- Hlast in Heq. injection Heq as ->. apply string_leb_refl.
    - rewrite <- Hlast in Hle. exact Hle. }
  split; [exact E5 |]. split; [exact E6 | reflexivity].
Qed.


Lemma unused_loopback_follows_last_name_witness :
  PStr "Loopback2" = PNone \/
  exists keys last n z,
    (oi <- getstr brief_output "interface" ;; dict_keys oi) = Ok keys /\
    In (KStr last) keys /\
    (forall name, In (KStr name) keys -> String.leb name last = true) /\
    py_int sample_externals (PStr (str_from 8 last)) = Ok n /\
    as_int n = Some z /\
    PStr "Loopback2" = PStr ("Loopback" ++ str_of_Z (z + 1)).
Proof.
  exact (unused_loopback_follows_last_name sample_externals unit brief_device tt tt dev
           brief_output (PStr "Loopback2") eq_refl eq_refl).
Defined.

(* --------------------------------------------------------------------- *)
(** *** [get_interface_without_service_policy] *)
(* --------------------------------------------------------------------- *)

Lemma without_service_policy_loop_spec (X : externals) (pattern interface_type : string)
    (items : list (pyval * pyval)) (v : pyval) :
  Interface.without_service_policy_loop X pattern interface_type items = Ok (Some v) ->
  exists name config cfg m,
    In (PStr name, config) items /\
    String.prefix ("interface " ++ interface_type) name = true /\
    py_join nl config = Ok cfg /\
    str_contains "service-policy" cfg = false /\
    re_search X pattern name = Some m /\
    getstr (PDict (groupdict m)) "intf" = Ok v.
Proof.
  induction items as [| [intf config] rest IH];
    cbn [Interface.without_service_policy_loop]; [discriminate |].
  assert (Hrest : Interface.without_service_policy_loop X pattern interface_type rest
                    = Ok (Some v) ->
            exists name config0 cfg m,
              ((intf, config) = (PStr name, config0) \/ In (PStr name, config0) rest) /\
              String.prefix ("interface " ++ interface_type) name = true /\
              py_join nl config0 = Ok cfg /\
              str_contains "service-policy" cfg = false /\
              re_search X pattern name = Some m /\
              getstr (PDict (groupdict m)) "intf" = Ok v).
  { intros H. destruct (IH H) as (name & config0 & cfg & m & Hin & Hrest).
    exists name, config0, cfg, m. split; [right; exact Hin | exact Hrest]. }
  destruct intf as [| | | | name | | | | |]; try discriminate.
  destruct (String.prefix ("interface " ++ interface_type) name) eqn:Ep; [| exact Hrest].
  destruct (py_join nl config) as [cfg |] eqn:Ej; cbn [bind ret Monad_result];
    [| discriminate].
  destruct (str_contains "service-policy" cfg) eqn:Ec; cbn [negb]; [exact Hrest |].
  destruct (re_search X pattern name) as [m |] eqn:Em; [| exact Hrest].
  destruct (getstr (PDict (groupdict m)) "intf") as [w |] eqn:Eg;
    cbn [bind ret Monad_result]; [| discriminate].
  intros H. injection H as <-.
  exists name, config, cfg, m. split; [left; reflexivity |]. repeat split; assumption.
Qed.

(** X14: the name that [get_interface_without_service_policy] returns
    is the group "intf" that the pattern finds in the header of a
    section of the running configuration; the header starts with
    "interface <interface_type>" and the lines of the section do not
    mention "service-policy". *)
Theorem interface_without_service_policy_has_none (X : externals) (S : Type)
    (h : handler S) (s s' : S) (device config_dict v : pyval) (interface_type : string)
    (virtual_interface : bool) :
  h (GetRunningConfigSectionDict device "interface") s = (Ok config_dict, s') ->
  returned (run (Interface.get_interface_without_service_policy X device interface_type
                   virtual_interface) h s) = Ok v ->
  v = PNone \/
  exists items name config cfg m,
    py_items config_dict = Ok items /\
    In (PStr name, config) items /\
    String.prefix ("interface " ++ interface_type) name = true /\
    py_join nl config = Ok cfg /\
    str_contains "service-policy" cfg = false /\
    re_search X (service_policy_pattern virtual_interface) name = Some m /\
    getstr (PDict (groupdict m)) "intf" = Ok v.
Proof.
  intros Hh Hv. unfold Interface.get_interface_without_service_policy in Hv.
  simpl in Hv. rewrite Hh in Hv. simpl in Hv.
  destruct (py_items config_dict) as [items |] eqn:Ei; simpl in Hv; [| discriminate Hv].
  match type of Hv with
  | context [Interface.without_service_policy_loop X ?p ?t ?i] =>
      destruct (Interface.without_service_policy_loop X p t i) as [[w |] |] eqn:El
  end; simpl in Hv; try discriminate Hv; injection Hv as <-; [| left; reflexivity].
  right.
  destruct (without_service_policy_loop_spec _ _ _ _ _ El)
    as (name & config & cfg & m & Hin & Hp & Hj & Hc & Hm & Hg).
  exists items, name, config, cfg, m. unfold service_policy_pattern.
  repeat split; assumption.
Qed.

Lemma interface_without_service_policy_has_none_witness :
  PStr "GigabitEthernet3" = PNone \/
  exists items name config cfg m,
    py_items policy_output = Ok items /\
    In (PStr name, config) items /\
    String.prefix ("interface " ++ "GigabitEthernet") name = true /\
    py_join nl config = Ok cfg /\
    str_contains "service-policy" cfg = false /\
    re_search header_externals (service_policy_pattern false) name = Some m /\
    getstr (PDict (groupdict m)) "intf" = Ok (PStr "GigabitEthernet3").
Proof.
  exact (interface_without_service_policy_has_none header_externals unit
           (stateless (fun _ => Ok policy_output)) tt tt
           dev policy_output (PStr "GigabitEthernet3") "GigabitEthernet" false
           eq_refl eq_refl).
Defined.

(* --------------------------------------------------------------------- *)
(** *** [get_interface_with_mask] *)
(* --------------------------------------------------------------------- *)

Lemma with_mask_inner_spec (out intf : pyval) (address_family netmask : string)
    (ips : list pyval) (v : pyval) :
  Interface.with_mask_inner out intf address_family netmask ips = Ok (Some v) ->
  exists ip plen ip_address,
    In ip ips /\
    (e <- py_getitem out intf ;; af <- getstr e address_family ;;
     d <- py_getitem af ip ;; getstr d "prefix_length") = Ok plen /\
    py_eq_str plen netmask = true /\
    (e <- py_getitem out intf ;; af <- getstr e address_family ;;
     d <- py_getitem af ip ;; getstr d "ip") = Ok ip_address /\
    v = PTuple [intf; ip_address].
Proof.
  induction ips as [| ip rest IH]; simpl; [discriminate |].
  destruct (py_getitem out intf) as [e |] eqn:E1; simpl; [| discriminate].
  destruct (getstr e address_family) as [af |] eqn:E2; simpl; [| discriminate].
  destruct (py_getitem af ip) as [d |] eqn:E3; simpl; [| discriminate].
  destruct (getstr d "prefix_length") as [plen |] eqn:E4; simpl; [| discriminate].
  destruct (py_eq_str plen netmask) eqn:E5.
  - destruct (getstr d "ip") as [ip_address |] eqn:E6; simpl; [| discriminate].
    intros H. injection H as <-.
    exists ip, plen, ip_address. split; [left; reflexivity |].
    rewrite E3. simpl. rewrite E4, E6. auto.
  - intros H. destruct (IH H) as (ip' & plen' & ipa & Hin & H1 & H2 & H3 & H4).
    exists ip', plen', ipa. split; [right; exact Hin |].
    repeat (simpl in H1; first [rewrite E1 in H1 | rewrite E2 in H1]).
    repeat (simpl in H3; first [rewrite E1 in H3 | rewrite E2 in H3]).
    auto.
Qed.

Lemma with_mask_loop_spec (out : pyval) (address_family netmask : string)
    (intfs : list pyval) (v : pyval) :
  Interface.with_mask_loop out address_family netmask intfs = Ok (Some v) ->
  exists intf ip plen ip_address,
    In intf intfs /\
    (e <- py_getitem out intf ;; af <- getstr e address_family ;;
     d <- py_getitem af ip ;; getstr d "prefix_length") = Ok plen /\
    py_eq_str plen netmask = true /\
    (e <- py_getitem out intf ;; af <- getstr e address_family ;;
     d <- py_getitem af ip ;; getstr d "ip") = Ok ip_address /\
    v = PTuple [intf; ip_address].
Proof.
  induction intfs as [| intf rest IH]; simpl; [discriminate |].
  assert (Hrest : Interface.with_mask_loop out address_family netmask rest = Ok (Some v) ->
            exists intf0 ip plen ip_address,
              (intf = intf0 \/ In intf0 rest) /\
              (e <- py_getitem out intf0 ;; af <- getstr e address_family ;;
               d <- py_getitem af ip ;; getstr d "prefix_length") = Ok plen /\
              py_eq_str plen netmask = true /\
              (e <- py_getitem out intf0 ;; af <- getstr e address_family ;;
               d <- py_getitem af ip ;; getstr d "ip") = Ok ip_address /\
              v = PTuple [intf0; ip_address]).
  { intros H. destruct (IH H) as (i & ip & plen & ipa & Hin & Hr).
    exists i, ip, plen, ipa. split; [right; exact Hin | exact Hr]. }
  destruct (py_getitem out intf) as [e |] eqn:E1; simpl; [| discriminate].
  destruct (py_in address_family e) as [[|] |] eqn:E2; simpl; try discriminate;
    [| exact Hrest].
  destruct (getstr e address_family) as [af |] eqn:E3; simpl; [| discriminate].
  destruct (py_iter af) as [ips |] eqn:E4; simpl; [| discriminate].
  destruct (Interface.with_mask_inner out intf address_family netmask ips)
    as [[w |] |] eqn:E5; simpl; try discriminate; [| exact Hrest].
  intros H. injection H as <-.
  destruct (with_mask_inner_spec _ _ _ _ _ _ E5) as (ip & plen & ipa & _ & H1 & H2 & H3 & H4).
  exists intf, ip, plen, ipa. split; [left; reflexivity |]. auto.
Qed.

(** X15: [get_interface_with_mask] returns [(None, None)] or an
    interface with one of its addresses whose "prefix_length" equals the
    given netmask. *)
Theorem interface_with_mask_matches (S : Type) (h : handler S) (s s' : S)
    (device out v : pyval) (netmask address_family : string) :
  h (Parse device "show interfaces") s = (Ok out, s') ->
  returned (run (Interface.get_interface_with_mask device netmask address_family) h s)
    = Ok v ->
  v = PTuple [PNone; PNone] \/
  exists intf ip plen ip_address,
    (e <- py_getitem out intf ;; af <- getstr e address_family ;;
     d <- py_getitem af ip ;; getstr d "prefix_length") = Ok plen /\
    py_eq_str plen netmask = true /\
    (e <- py_getitem out intf ;; af <- getstr e address_family ;;
     d <- py_getitem af ip ;; getstr d "ip") = Ok ip_address /\
    v = PTuple [intf; ip_address].
Proof.
  intros Hh Hv. unfold Interface.get_interface_with_mask, try_event in Hv.
  simpl in Hv. rewrite Hh in Hv. simpl in Hv. rewrite run_lift in Hv.
  destruct (py_iter out) as [intfs |]; simpl in Hv; [| discriminate Hv].
  destruct (Interface.with_mask_loop out address_family netmask intfs)
    as [[w |] |] eqn:El; simpl in Hv; try discriminate Hv; injection Hv as <-;
    [| left; reflexivity].
  right. destruct (with_mask_loop_spec _ _ _ _ _ El) as (i & ip & plen & ipa & _ & Hr).
  exists i, ip, plen, ipa. exact Hr.
Qed.

Lemma interface_with_mask_matches_witness :
  PTuple [PStr "GigabitEthernet1"; PStr "10.0.0.1"] = PTuple [PNone; PNone] \/
  exists intf ip plen ip_address,
    (e <- py_getitem mask_output intf ;; af <- getstr e "ipv4" ;;
     d <- py_getitem af ip ;; getstr d "prefix_length") = Ok plen /\
    py_eq_str plen "30" = true /\
    (e <- py_getitem mask_output intf ;; af <- getstr e "ipv4" ;;
     d <- py_getitem af ip ;; getstr d "ip") = Ok ip_address /\
    PTuple [PStr "GigabitEthernet1"; PStr "10.0.0.1"] = PTuple [intf; ip_address].
Proof.
  exact (interface_with_mask_matches unit (answering mask_output) tt tt dev mask_output
           (PTuple [PStr "GigabitEthernet1"; PStr "10.0.0.1"]) "30" "ipv4" eq_refl eq_refl).
Defined.

(* --------------------------------------------------------------------- *)
(** *** [get_neighboring_device_interface] *)
(* --------------------------------------------------------------------- *)

Lemma lookup_dict_set_other (k k' : key) (v : pyval) (d : list (key * pyval)) :
  key_eqb k k' = false -> lookup k (dict_set k' v d) = lookup k d.
Proof.
  intros Hk. induction d as [| [k0 v0] d IH]; simpl.
  - rewrite Hk. reflexivity.
  - destruct (key_eqb k' k0) eqn:E0; simpl.
    + rewrite Hk. destruct (key_eqb k k0) eqn:E1; [| reflexivity].
      destruct k, k', k0; simpl in *; try discriminate.
      * apply String.eqb_eq in E0, E1. subst. rewrite String.eqb_refl in Hk. discriminate.
      * apply Z.eqb_eq in E0, E1. subst. rewrite Z.eqb_refl in Hk. discriminate.
    + destruct (key_eqb k k0); [reflexivity | exact IH].
Qed.

Lemma neighboring_loop_foreign (device : pyval) (its : list pyval) :
  forall td tr td',
  produces (Interface.neighboring_loop device its td) tr (Ok td') ->
  lookup (KStr "uplink2") td = None ->
  lookup (KStr "uplink2") td' <> None ->
  exists it d, In (GetAttr it "device", Ok d) tr /\ obj_eqb d device = false.
Proof.
  induction its as [| it rest IH]; intros td tr td' H Hnone Hsome.
  - simpl in H. destruct H as [_ H]. injection H as <-. contradiction.
  - simpl in H. destruct H as (r1 & tr1 & -> & H).
    destruct r1 as [d |]; simpl in H; [| destruct H as [_ H]; discriminate H].
    destruct H as (r2 & tr2 & -> & H).
    destruct r2 as [name |]; simpl in H; [| destruct H as [_ H]; discriminate H].
    destruct H as (r3 & tr3 & -> & H).
    destruct r3 as [d' |]; simpl in H; [| destruct H as [_ H]; discriminate H].
    destruct (obj_eqb d device) eqn:Ed.
    + destruct (IH _ _ _ H) as (it' & d0 & Hin & Hd0).
      * rewrite lookup_dict_set_other; [exact Hnone | reflexivity].
      * exact Hsome.
      * exists it', d0. split; [simpl; auto | exact Hd0].
    + exists it, d. split; [left; reflexivity | exact Ed].
Qed.

(** X16: [get_neighboring_device_interface] returns a value only when
    some interface of the link belongs to another device; a link whose
    interfaces are all on [device] makes it raise instead. *)
Theorem neighboring_device_interface_needs_neighbor (S : Type) (h : handler S) (s : S)
    (device testbed v : pyval) (interface : string) :
  let o := run (Interface.get_neighboring_device_interface device testbed interface) h s in
  returned o = Ok v ->
  exists it d, In (GetAttr it "device", Ok d) (transcript o) /\ obj_eqb d device = false.
Proof.
  cbv zeta. apply via_produces. intros tr res Hp Hv. subst res.
  unfold Interface.get_neighboring_device_interface in Hp.
  simpl in Hp. destruct Hp as (r0 & tr0 & -> & Hp).
  destruct Hp as (r1 & tr1 & -> & Hp).
  destruct r1 as [links |]; simpl in Hp; [| destruct Hp as [_ Hp]; discriminate Hp].
  destruct Hp as (r2 & tr2 & -> & Hp).
  destruct r2 as [link |]; simpl in Hp; [| destruct Hp as [_ Hp]; discriminate Hp].
  destruct Hp as (r3 & tr3 & -> & Hp).
  destruct r3 as [found |]; simpl in Hp; [| destruct Hp as [_ Hp]; discriminate Hp].
  destruct (py_iter found) as [its |]; simpl in Hp; [| destruct Hp as [_ Hp]; discriminate Hp].
  apply produces_bind in Hp.
  destruct Hp as [(td & tra & trb & Hloop & Hrest & ->) | (e & _ & He)]; [| discriminate He].
  destruct (lookup (KStr "uplink2") td) as [u |] eqn:Eu.
  - destruct (neighboring_loop_foreign device its [] tra td Hloop eq_refl)
      as (it & d & Hin & Hd).
    + rewrite Eu. discriminate.
    + exists it, d. split; [| exact Hd].
      simpl. do 4 right. apply in_or_app. left. exact Hin.
  - exfalso. unfold getstr, py_getitem in Hrest. simpl in Hrest. rewrite ?Eu in Hrest.
    simpl in Hrest. destruct Hrest as [_ Hrest]. discriminate Hrest.
Qed.

Lemma neighboring_device_interface_needs_neighbor_witness :
  exists it d,
    In (GetAttr it "device", Ok d)
       (transcript (run (Interface.get_neighboring_device_interface dev (PObj 5) "Gi1")
                        scripted link_script)) /\
    obj_eqb d dev = false.
Proof.
  exact (neighboring_device_interface_needs_neighbor (list (result pyval)) scripted
           link_script dev (PObj 5)
           (PDict [(KStr "uplink2",
                    PDict [(KStr "name", PStr "GigabitEthernet1");
                           (KStr "device", PObj 2)])])
           "Gi1" eq_refl).
Defined.

(* --------------------------------------------------------------------- *)
(** *** [get_mpls_interface_ldp_configured] *)
(* --------------------------------------------------------------------- *)

Lemma ldp_configured_loop_spec (X : externals) (items : list (pyval * pyval))
    (acc l : list pyval) :
  Mpls.ldp_configured_loop X items acc = Ok l ->
  exists names,
    l = (acc ++ names)%list /\
    Forall2 (fun it v => exists header m,
               fst it = PStr header /\
               re_match X interface_pattern header = Some m /\
               getstr (PDict (groupdict m)) "name" = Ok v)
            (filter ldp_configured items) names.
Proof.
  revert acc. induction items as [| [intf data_dict] rest IH]; intros acc;
    cbn [Mpls.ldp_configured_loop].
  - intros H. injection H as <-. exists []. split; [symmetry; apply app_nil_r | constructor].
  - cbn [filter]. unfold ldp_configured at 1. cbn [snd].
    destruct (py_in "mpls label protocol ldp" data_dict) as [[|] |] eqn:Ec;
      cbn [bind ret Monad_result]; [| apply IH | discriminate].
    destruct intf as [| | | | header | | | | |]; try discriminate.
    fold interface_pattern.
    destruct (re_match X interface_pattern header) as [m |] eqn:Em; [| discriminate].
    destruct (getstr (PDict (groupdict m)) "name") as [v |] eqn:Eg;
      cbn [bind ret Monad_result]; [| discriminate].
    intros H. destruct (IH _ H) as (names & -> & Hall).
    exists (v :: names). split; [rewrite <- app_assoc; reflexivity |].
    constructor; [| exact Hall]. exists header, m. cbn [fst]. repeat split; assumption.
Qed.

Lemma ldp_configured_loop_unmatched (X : externals) (before after : list (pyval * pyval))
    (header : string) (data_dict : pyval) (acc : list pyval) :
  Forall (fun it => py_in "mpls label protocol ldp" (snd it) = Ok false) before ->
  py_in "mpls label protocol ldp" data_dict = Ok true ->
  re_match X interface_pattern header = None ->
  Mpls.ldp_configured_loop X (before ++ (PStr header, data_dict) :: after)%list acc
    = Err AttributeError.
Proof.
  intros Hb Hc Hm. induction Hb as [| [intf d] before Hd Hb IH];
    cbn [app Mpls.ldp_configured_loop].
  - rewrite Hc. cbn [bind ret Monad_result]. fold interface_pattern. rewrite Hm. reflexivity.
  - cbn [snd] in Hd. rewrite Hd. cbn [bind ret Monad_result]. exact IH.
Qed.

(** X17: [get_mpls_interface_ldp_configured] returns, in the order of
    the running configuration, the "name" group of the header of every
    section that holds the line "mpls label protocol ldp"; when the
    first such section has a header the pattern does not match, it
    raises [AttributeError]. *)
Theorem ldp_configured_lists_sections (X : externals) (S : Type) (h : handler S)
    (s s' : S) (device intf_dict : pyval) :
  h (GetRunningConfigSectionDict device "interface") s = (Ok intf_dict, s') ->
  let r := returned (run (Mpls.get_mpls_interface_ldp_configured X device) h s) in
  (forall v, r = Ok v ->
     exists items names,
       py_items intf_dict = Ok items /\
       v = PList names /\
       Forall2 (fun it name => exists header m,
                  fst it = PStr header /\
                  re_match X interface_pattern header = Some m /\
                  getstr (PDict (groupdict m)) "name" = Ok name)
               (filter ldp_configured items) names) /\
  (forall before header data_dict after,
     py_items intf_dict = Ok (before ++ (PStr header, data_dict) :: after)%list ->
     Forall (fun it => py_in "mpls label protocol ldp" (snd it) = Ok false) before ->
     py_in "mpls label protocol ldp" data_dict = Ok true ->
     re_match X interface_pattern header = None ->
     r = Err AttributeError).
Proof.
  intros Hh. cbv zeta. unfold Mpls.get_mpls_interface_ldp_configured.
  simpl. rewrite Hh. simpl. split.
  - intros v Hv.
    destruct (py_items intf_dict) as [items |] eqn:Ei; simpl in Hv; [| discriminate Hv].
    destruct (Mpls.ldp_configured_loop X items []) as [l |] eqn:El; simpl in Hv;
      [| discriminate Hv].
    injection Hv as <-.
    destruct (ldp_configured_loop_spec X items [] l El) as (names & -> & Hall).
    exists items, names. split; [reflexivity |]. split; [reflexivity | exact Hall].
  - intros before header data_dict after -> Hb Hc Hm. simpl.
    rewrite (ldp_configured_loop_unmatched X before after header data_dict [] Hb Hc Hm).
    reflexivity.
Qed.

Lemma ldp_configured_lists_sections_witness :
  returned (run (Mpls.get_mpls_interface_ldp_configured sample_externals dev)
                (stateless (fun _ => Ok section_output)) tt) = Err AttributeError.
Proof.
  apply (proj2 (ldp_configured_lists_sections sample_externals unit
                  (stateless (fun _ => Ok section_output)) tt tt dev section_output eq_refl)
           [] "interface GigabitEthernet1" (PDict [(KStr "mpls label protocol ldp", PDict [])])
           [(PStr "interface GigabitEthernet2", PDict [])]).
  - reflexivity.
  - constructor.
  - reflexivity.
  - reflexivity.
Defined.

(* --------------------------------------------------------------------- *)
(** *** [get_mpls_ldp_peer_state] *)
(* --------------------------------------------------------------------- *)

Lemma peer_state_indexes_spec (out vrf peer : pyval) (interface : string)
    (indexes : list pyval) (v : pyval) :
  Mpls.peer_state_indexes out vrf peer interface indexes = Ok (Some v) ->
  exists index entry,
    In index indexes /\
    label_space out vrf peer index = Ok entry /\
    py_get entry "state" PNone = Ok v /\
    discovered_on interface entry.
Proof.
  induction indexes as [| index rest IH]; cbn [Mpls.peer_state_indexes]; [discriminate |].
  fold (label_space out vrf peer index).
  destruct (label_space out vrf peer index) as [entry |] eqn:Ee;
    cbn [bind ret Monad_result]; [| discriminate].
  destruct (py_get entry "state" PNone) as [state |] eqn:Es;
    cbn [bind ret Monad_result]; [| discriminate].
  destruct (py_in "ldp_discovery_sources" entry) as [[|] |] eqn:Ei;
    cbn [and_then bind ret Monad_result]; try discriminate.
  - destruct (getstr entry "ldp_discovery_sources") as [sources |] eqn:E1;
      cbn [bind ret Monad_result]; [| discriminate].
    destruct (py_get sources "interface" PNone) as [ifaces |] eqn:E2;
      cbn [bind ret Monad_result]; [| discriminate].
    destruct (py_in interface ifaces) as [[|] |] eqn:E3;
      cbn [bind ret Monad_result]; try discriminate.
    + intros H. injection H as <-. exists index, entry.
      split; [left; reflexivity |]. split; [exact Ee |]. split; [exact Es |].
      exists sources, ifaces. repeat split; assumption.
    + intros H. destruct (IH H) as (i & e & Hin & Hrest).
      exists i, e. split; [right; exact Hin | exact Hrest].
  - intros H. destruct (IH H) as (i & e & Hin & Hrest).
    exists i, e. split; [right; exact Hin | exact Hrest].
Qed.

Lemma peer_state_peers_spec (out vrf : pyval) (interface : string)
    (peers : list pyval) (v : pyval) :
  Mpls.peer_state_peers out vrf interface peers = Ok (Some v) ->
  exists peer index entry,
    In peer peers /\
    label_space out vrf peer index = Ok entry /\
    py_get entry "state" PNone = Ok v /\
    discovered_on interface entry.
Proof.
  induction peers as [| peer rest IH]; cbn [Mpls.peer_state_peers]; [discriminate |].
  destruct (getstr out "vrf") as [a |]; cbn [bind ret Monad_result]; [| discriminate].
  destruct (py_getitem a vrf) as [b |]; cbn [bind ret Monad_result]; [| discriminate].
  destruct (getstr b "peers") as [c |]; cbn [bind ret Monad_result]; [| discriminate].
  destruct (py_getitem c peer) as [d |]; cbn [bind ret Monad_result]; [| discriminate].
  destruct (py_get d "label_space_id" (PDict [])) as [l |];
    cbn [bind ret Monad_result]; [| discriminate].
  destruct (py_iter l) as [indexes |]; cbn [bind ret Monad_result]; [| discriminate].
  destruct (Mpls.peer_state_indexes out vrf peer interface indexes) as [[w |] |] eqn:Ex;
    cbn [bind ret Monad_result]; [| | discriminate].
  - intros H. injection H as <-.
    destruct (peer_state_indexes_spec _ _ _ _ _ _ Ex) as (index & entry & _ & Hrest).
    exists peer, index, entry. split; [left; reflexivity | exact Hrest].
  - intros H. destruct (IH H) as (p & i & e & Hin & Hrest).
    exists p, i, e. split; [right; exact Hin | exact Hrest].
Qed.

Lemma peer_state_vrfs_spec (out : pyval) (interface : string)
    (vrfs : list pyval) (v : pyval) :
  Mpls.peer_state_vrfs out interface vrfs = Ok (Some v) ->
  exists vrf peer index entry,
    In vrf vrfs /\
    label_space out vrf peer index = Ok entry /\
    py_get entry "state" PNone = Ok v /\
    discovered_on interface entry.
Proof.
  induction vrfs as [| vrf rest IH]; cbn [Mpls.peer_state_vrfs]; [discriminate |].
  destruct (getstr out "vrf") as [a |]; cbn [bind ret Monad_result]; [| discriminate].
  destruct (py_getitem a vrf) as [b |]; cbn [bind ret Monad_result]; [| discriminate].
  destruct (py_get b "peers" (PDict [])) as [c |];
    cbn [bind ret Monad_result]; [| discriminate].
  destruct (py_iter c) as [peers |]; cbn [bind ret Monad_result]; [| discriminate].
  destruct (Mpls.peer_state_peers out vrf interface peers) as [[w |] |] eqn:Ex;
    cbn [bind ret Monad_result]; [| | discriminate].
  - intros H. injection H as <-.
    destruct (peer_state_peers_spec _ _ _ _ _ Ex) as (peer & index & entry & _ & Hrest).
    exists vrf, peer, index, entry. split; [left; reflexivity | exact Hrest].
  - intros H. destruct (IH H) as (x & p & i & e & Hin & Hrest).
    exists x, p, i, e. split; [right; exact Hin | exact Hrest].
Qed.

(** X18: the state that [get_mpls_ldp_peer_state] returns is the
    "state" of a label space of some peer of some VRF of the parsed
    output whose "ldp_discovery_sources" list the interface; otherwise
    it returns [None]. *)
Theorem ldp_peer_state_is_discovered (S : Type) (h : handler S) (s s' : S)
    (device out v : pyval) (interface : string) :
  h (Parse device "show mpls ldp neighbor") s = (Ok out, s') ->
  returned (run (Mpls.get_mpls_ldp_peer_state device interface) h s) = Ok v ->
  v = PNone \/
  exists vrfs vrf peer index entry,
    (d <- getstr out "vrf" ;; py_iter d) = Ok vrfs /\
    In vrf vrfs /\
    label_space out vrf peer index = Ok entry /\
    py_get entry "state" PNone = Ok v /\
    discovered_on interface entry.
Proof.
  intros Hh Hv. unfold Mpls.get_mpls_ldp_peer_state, try_event in Hv.
  simpl in Hv. rewrite Hh in Hv. simpl in Hv.
  destruct (truthy out); [| injection Hv as <-; left; reflexivity].
  destruct (py_in "vrf" out) as [[|] |]; try discriminate Hv;
    [| injection Hv as <-; left; reflexivity].
  destruct (getstr out "vrf") as [d |] eqn:E1; [| discriminate Hv].
  destruct (py_iter d) as [vrfs |] eqn:E2; [| discriminate Hv].
  destruct (Mpls.peer_state_vrfs out interface vrfs) as [[w |] |] eqn:Ex;
    try discriminate Hv; injection Hv as <-; [| left; reflexivity].
  right. destruct (peer_state_vrfs_spec _ _ _ _ Ex) as (vrf & peer & index & entry & Hrest).
  exists vrfs, vrf, peer, index, entry. split; [| exact Hrest].
  cbn [bind ret Monad_result]. exact E2.
Qed.

Lemma ldp_peer_state_is_discovered_witness :
  PStr "oper" = PNone \/
  exists vrfs vrf peer index entry,
    (d <- getstr peer_output "vrf" ;; py_iter d) = Ok vrfs /\
    In vrf vrfs /\
    label_space peer_output vrf peer index = Ok entry /\
    py_get entry "state" PNone = Ok (PStr "oper") /\
    discovered_on "GigabitEthernet1" entry.
Proof.
  exact (ldp_peer_state_is_discovered unit (answering peer_output) tt tt dev peer_output
           (PStr "oper") "GigabitEthernet1" eq_refl eq_refl).
Defined.

(* --------------------------------------------------------------------- *)
(** *** [get_interface_packet_counter] *)
(* --------------------------------------------------------------------- *)

(** X19: [get_interface_packet_counter] runs no command when it is
    given a parsed output, and reads the counter from that output; with
    no output, or an empty one, it parses "show interfaces <interface>"
    once. *)
Theorem packet_counter_reuses_output (S : Type) (h : handler S) (s : S)
    (device output : pyval) (interface counter_field : string) :
  let o := run (Interface.get_interface_packet_counter device interface counter_field
                  output) h s in
  events o = (if truthy output then []
              else [Parse device ("show interfaces " ++ interface)]) /\
  (truthy output = true ->
   returned o = (e <- getstr output interface ;;
                 counters <- py_get e "counters" (PDict []) ;;
                 py_get counters counter_field PNone)).
Proof.
  cbv zeta. unfold Interface.get_interface_packet_counter, try_event, events.
  destruct (truthy output); cbn [negb].
  - split.
    + destruct (Interface.read_counter interface counter_field output); reflexivity.
    + intros _. apply run_lift.
  - split; [| discriminate]. simpl.
    destruct (h (Parse device ("show interfaces " ++ interface)) s) as [[out | e] s'];
      simpl.
    + destruct (Interface.read_counter interface counter_field out); reflexivity.
    + destruct (exn_eqb e SchemaEmptyParserError); reflexivity.
Qed.

(* --------------------------------------------------------------------- *)
(** *** [get_interface_ip_and_mask] *)
(* --------------------------------------------------------------------- *)

Lemma lookup_existsb (k : key) (d : list (key * pyval)) :
  existsb (key_eqb k) (map fst d)
    = match lookup k d with Some _ => true | None => false end.
Proof.
  induction d as [| [k' v] d IH]; simpl; [reflexivity |].
  destruct (key_eqb k k'); [reflexivity | exact IH].
Qed.

Lemma getstr_dict (v : pyval) (k : string) (x : pyval) :
  getstr v k = Ok x -> exists d, v = PDict d /\ lookup (KStr k) d = Some x.
Proof.
  unfold getstr, py_getitem. destruct v; try discriminate.
  cbn [as_key]. destruct (lookup (KStr k) d) as [y |] eqn:El; [| discriminate].
  intros H. injection H as <-. exists d. split; [reflexivity | exact El].
Qed.

Lemma ip_and_mask_loop_skip (X : externals) (prefix : bool) (after : list (pyval * pyval))
    (ip mask : pyval) :
  Forall without_ipv4 after ->
  Interface.ip_and_mask_loop X prefix after ip mask = Ok (ip, mask).
Proof.
  intros H. induction H as [| [name data] after (d & Hd & Hl) _ IH];
    cbn [Interface.ip_and_mask_loop]; [reflexivity |].
  cbn [snd] in Hd. subst data. cbn [dict_keys bind ret Monad_result].
  rewrite lookup_existsb, Hl. exact IH.
Qed.

Lemma ip_and_mask_loop_last (X : externals) (prefix : bool)
    (before after : list (pyval * pyval)) (name data v4 ipv4 ip_data : pyval)
    (more : list (pyval * pyval)) (ip mask : pyval) (r : pyval * pyval) :
  getstr data "ipv4" = Ok v4 ->
  py_items v4 = Ok ((ipv4, ip_data) :: more) ->
  Forall without_ipv4 after ->
  Interface.ip_and_mask_loop X prefix (before ++ (name, data) :: after)%list ip mask = Ok r ->
  (if prefix then Ok ipv4 else getstr ip_data "ip") = Ok (fst r) /\
  (plen <- getstr ip_data "prefix_length" ;; int_to_mask X plen) = Ok (snd r).
Proof.
  intros H4 Hi Ha. revert ip mask.
  induction before as [| [n0 d0] before IH]; intros ip mask;
    cbn [app Interface.ip_and_mask_loop].
  - destruct (getstr_dict data "ipv4" v4 H4) as (d & Hd & Hl). subst data.
    cbn [dict_keys bind ret Monad_result]. rewrite lookup_existsb, Hl.
    rewrite H4. cbn [bind ret Monad_result]. rewrite Hi. cbn [bind ret Monad_result].
    destruct prefix; cbn [bind ret Monad_result].
    + destruct (getstr ip_data "prefix_length") as [plen |]; cbn [bind ret Monad_result];
        [| discriminate].
      destruct (int_to_mask X plen) as [m |]; cbn [bind ret Monad_result]; [| discriminate].
      rewrite (ip_and_mask_loop_skip X true after ipv4 m Ha).
      intros H. injection H as <-. split; reflexivity.
    + destruct (getstr ip_data "ip") as [i |]; cbn [bind ret Monad_result]; [| discriminate].
      destruct (getstr ip_data "prefix_length") as [plen |]; cbn [bind ret Monad_result];
        [| discriminate].
      destruct (int_to_mask X plen) as [m |]; cbn [bind ret Monad_result]; [| discriminate].
      rewrite (ip_and_mask_loop_skip X false after i m Ha).
      intros H. injection H as <-. split; reflexivity.
  - destruct (dict_keys d0) as [ks |]; cbn [bind ret Monad_result]; [| discriminate].
    destruct (existsb (key_eqb (KStr "ipv4")) ks); [| apply IH].
    destruct (getstr d0 "ipv4") as [w |]; cbn [bind ret Monad_result]; [| discriminate].
    destruct (py_items w) as [[| [a b] its] |]; cbn [bind ret Monad_result];
      [apply IH | | discriminate].
    assert (Hstep : forall i,
              (plen <- getstr b "prefix_length" ;;
               mask' <- int_to_mask X plen ;;
               Interface.ip_and_mask_loop X prefix
                 (before ++ (name, data) :: after)%list i mask') = Ok r ->
              (if prefix then Ok ipv4 else getstr ip_data "ip") = Ok (fst r) /\
              (plen <- getstr ip_data "prefix_length" ;; int_to_mask X plen) = Ok (snd r)).
    { intros i. cbn [bind ret Monad_result].
      destruct (getstr b "prefix_length") as [plen |]; [| discriminate].
      destruct (int_to_mask X plen) as [m |]; [| discriminate].
      apply IH. }
    destruct prefix; cbn [bind ret Monad_result]; [apply Hstep |].
    destruct (getstr b "ip") as [i |]; [apply Hstep | discriminate].
Qed.

(** X20: the address and mask that [get_interface_ip_and_mask] returns
    are those of the first address of the last interface of the parsed
    output that has an "ipv4" entry: the [break] leaves the inner loop
    only. *)
Theorem ip_and_mask_last_interface_wins (X : externals) (S : Type) (h : handler S)
    (s s' : S) (device out v : pyval) (interface : string) (prefix : bool)
    (before after : list (pyval * pyval)) (name data v4 ipv4 ip_data : pyval)
    (more : list (pyval * pyval)) :
  h (Parse device ("show interfaces " ++ interface)) s = (Ok out, s') ->
  py_items out = Ok (before ++ (name, data) :: after)%list ->
  getstr data "ipv4" = Ok v4 ->
  py_items v4 = Ok ((ipv4, ip_data) :: more) ->
  Forall without_ipv4 after ->
  returned (run (Interface.get_interface_ip_and_mask X device interface prefix) h s) = Ok v ->
  exists ip mask,
    v = PTuple [ip; mask] /\
    (if prefix then Ok ipv4 else getstr ip_data "ip") = Ok ip /\
    (plen <- getstr ip_data "prefix_length" ;; int_to_mask X plen) = Ok mask.
Proof.
  intros Hh Hitems H4 Hi Ha Hv.
  unfold Interface.get_interface_ip_and_mask, try_event in Hv.
  simpl in Hv. rewrite Hh in Hv. simpl in Hv. rewrite Hitems in Hv.
  destruct (Interface.ip_and_mask_loop X prefix (before ++ (name, data) :: after)%list
              PNone PNone) as [r |] eqn:El; [| discriminate Hv].
  injection Hv as <-.
  destruct (ip_and_mask_loop_last X prefix before after name data v4 ipv4 ip_data more
              PNone PNone r H4 Hi Ha El) as [H1 H2].
  exists (fst r), (snd r). split; [reflexivity |]. split; assumption.
Qed.

Lemma ip_and_mask_last_interface_wins_witness :
  exists ip mask,
    PTuple [PStr "10.0.0.1"; PStr "30"] = PTuple [ip; mask] /\
    getstr (PDict [(KStr "prefix_length", PStr "30"); (KStr "ip", PStr "10.0.0.1")]) "ip"
      = Ok ip /\
    (plen <- getstr (PDict [(KStr "prefix_length", PStr "30"); (KStr "ip", PStr "10.0.0.1")])
               "prefix_length" ;;
     int_to_mask sample_externals plen) = Ok mask.
Proof.
  exact (ip_and_mask_last_interface_wins sample_externals unit (answering mask_output) tt tt
           dev mask_output (PTuple [PStr "10.0.0.1"; PStr "30"]) "GigabitEthernet1" false
           [] [] (PStr "GigabitEthernet1")
           (PDict [(KStr "ipv4",
                    PDict [(KStr "10.0.0.1/30",
                            PDict [(KStr "prefix_length", PStr "30");
                                   (KStr "ip", PStr "10.0.0.1")])])])
           (PDict [(KStr "10.0.0.1/30",
                    PDict [(KStr "prefix_length", PStr "30"); (KStr "ip", PStr "10.0.0.1")])])
           (PStr "10.0.0.1/30")
           (PDict [(KStr "prefix_length", PStr "30"); (KStr "ip", PStr "10.0.0.1")])
           [] eq_refl eq_refl eq_refl eq_refl (Forall_nil _) eq_refl).
Defined.
